(** * Attendance tracker: a shallow embedding of [app.py] and its properties

    The Flask views of [app.py] are embedded as functions over an explicit
    world: the committed tables of the SQLite store, the unit of work of the
    SQLAlchemy session, and the clock read by [datetime.utcnow].  A view is a
    computation in a state-and-exception monad; the [try]/[except] of each
    view, [db.session.commit] and [db.session.rollback] are kept as they are
    written.

    Conventions.
    - A request body is [None] when [request.get_json()] yields [None] and a
      record of optional fields otherwise; a field that is present carries a
      value of the column's type (a string, or an integer for [user_id]).
      JSON nulls and values of other types are outside the model.
    - Tables are lists of rows in rowid order, which is the order a full scan
      returns them in; a new row takes the largest id plus one.
    - The store enforces what the column declarations ask for
      ([unique=True] on [username] and [email]); the foreign key of
      [Attendance.user_id] is declared but not enforced by the engine.
    - The session belongs to one request: it is empty when a view starts.
    - [datetime.utcnow] is a sequence of readings, one per call.
    - Library functions on texts ([str] of an exception, the password hash,
      [strptime], [fromisoformat], the store's reading of a text as an
      integer) are parameters of the views.
    - Floats are binary64 ([PrimFloat]); [round(x, 2)] is decimal rounding of
      the exact value of [x], half to even. *)

From Stdlib Require Import ZArith List String Ascii Bool Lia Floats Uint63.
Import ListNotations.
Set Warnings "-register-all,-abstract-large-number".
Open Scope string_scope.
Open Scope Z_scope.

(* ================================================================= *)
(** ** Dates and times *)

Record date := mkdate { year : Z; month : Z; day : Z }.

Record datetime := mkdatetime {
  dt_date : date;          (* [.date()] *)
  hour : Z;
  minute : Z;
  second : Z;
  microsecond : Z
}.

Definition date_eqb (a b : date) : bool :=
  ((year a =? year b) && (month a =? month b) && (day a =? day b))%bool.

Definition valid_date (d : date) : Prop :=
  1000 <= year d <= 9999 /\ 1 <= month d <= 12 /\ 1 <= day d <= 31.

Definition valid_datetime (t : datetime) : Prop :=
  valid_date (dt_date t) /\
  0 <= hour t < 24 /\ 0 <= minute t < 60 /\ 0 <= second t < 60.

(** One decimal digit as a character. *)
Definition digit (n : Z) : ascii := ascii_of_N (Z.to_N (48 + n mod 10)).

(** [%m], [%d], [%H], [%M], [%S]: two digits, zero padded. *)
Definition pad2 (n : Z) (k : string) : string :=
  String (digit (n / 10)) (String (digit n) k).

(** [%Y]: the year in decimal with the digits it has.  The C library does
    not pad: the year 999 is written [999], and only a year from 1000 on
    takes four characters.  A [datetime] has a year from 1 to 9999. *)
Definition year_text (n : Z) (k : string) : string :=
  if n <? 10 then String (digit n) k
  else if n <? 100 then pad2 n k
  else if n <? 1000 then String (digit (n / 100)) (pad2 n k)
  else String (digit (n / 1000)) (String (digit (n / 100)) (pad2 n k)).

(** [d.strftime('%Y-%m-%d')], followed by [k]. *)
Definition strftime_date (d : date) (k : string) : string :=
  year_text (year d)
    (String "-" (pad2 (month d) (String "-" (pad2 (day d) k)))).

(** [t.strftime('%Y-%m-%d %H:%M:%S')] *)
Definition strftime (t : datetime) : string :=
  strftime_date (dt_date t)
    (String " " (pad2 (hour t) (String ":" (pad2 (minute t)
       (String ":" (pad2 (second t) EmptyString)))))).

(** The value of a digit character, and of a run of digit characters. *)
Definition digit_val (c : ascii) : option Z :=
  let n := Z.of_N (N_of_ascii c) in
  if ((48 <=? n) && (n <=? 57))%bool then Some (n - 48) else None.

Fixpoint digits_val (acc : Z) (s : string) : option Z :=
  match s with
  | EmptyString => Some acc
  | String c s' =>
      match digit_val c with
      | Some d => digits_val (10 * acc + d) s'
      | None => None
      end
  end.

(** Reading a string against the shape [YYYY-MM-DD HH:MM:SS]: nineteen
    characters, digits where the letters are, the separators in between. *)
Definition read_timestamp (s : string) : option (Z * Z * Z * Z * Z * Z) :=
  match digits_val 0 (substring 0 4 s), digits_val 0 (substring 5 2 s),
        digits_val 0 (substring 8 2 s), digits_val 0 (substring 11 2 s),
        digits_val 0 (substring 14 2 s), digits_val 0 (substring 17 2 s) with
  | Some y, Some mo, Some d, Some h, Some mi, Some se =>
      if ((String.length s =? 19)%nat
          && String.eqb (substring 4 1 s) "-" && String.eqb (substring 7 1 s) "-"
          && String.eqb (substring 10 1 s) " " && String.eqb (substring 13 1 s) ":"
          && String.eqb (substring 16 1 s) ":")%bool
      then Some (y, mo, d, h, mi, se) else None
  | _, _, _, _, _, _ => None
  end.

(* ================================================================= *)
(** ** JSON values produced by [jsonify] *)

Inductive json :=
| JNull
| JInt (z : Z)
| JFloat (f : float)
| JStr (s : string)
| JList (l : list json)
| JObj (fields : list (string * json)).

Definition keys (j : json) : list string :=
  match j with
  | JObj fields => map fst fields
  | _ => []
  end.

Fixpoint assoc (k : string) (fields : list (string * json)) : option json :=
  match fields with
  | [] => None
  | (k', v) :: rest => if String.eqb k k' then Some v else assoc k rest
  end.

(** [j[k]] on an object. *)
Definition field (k : string) (j : json) : option json :=
  match j with
  | JObj fields => assoc k fields
  | _ => None
  end.

(* ================================================================= *)
(** ** Python's float arithmetic, as far as the analytics views use it *)

(** [float(n)] for a count. *)
Definition float_of_Z (z : Z) : float :=
  if z <? 0 then PrimFloat.opp (PrimFloat.of_uint63 (Uint63.of_Z (- z)))
  else PrimFloat.of_uint63 (Uint63.of_Z z).

(** The integer nearest to [m * 2^e * 100], ties to even. *)
Definition nearest_hundredths (m e : Z) : Z :=
  if 0 <=? e then m * 2 ^ e * 100
  else
    let q := 2 ^ (- e) in
    let fl := (m * 100) / q in
    let r := (m * 100) mod q in
    if 2 * r <? q then fl
    else if q <? 2 * r then fl + 1
    else if Z.even fl then fl else fl + 1.

(** [round(x, 2)]: the exact binary value of [x] is rounded to two decimals
    (half to even) and the decimal is converted back to the nearest float.
    Zeros, infinities and NaN are returned as they are. *)
Definition py_round2 (x : float) : float :=
  match Prim2SF x with
  | S754_finite s m e =>
      let r := PrimFloat.div (float_of_Z (nearest_hundredths (Zpos m) e))
                             (float_of_Z 100) in
      if s then PrimFloat.opp r else r
  | _ => x
  end.

(** [round((num / den * 100), 2) if den > 0 else 0] *)
Definition percentage (num den : Z) : json :=
  if 0 <? den
  then JFloat (py_round2 (PrimFloat.mul (PrimFloat.div (float_of_Z num) (float_of_Z den))
                                        (float_of_Z 100)))
  else JInt 0.

(* ================================================================= *)
(** ** Exceptions and outcomes *)

Inductive exn :=
| TypeError        (* [k in None] *)
| ValueError       (* [strptime], [fromisoformat] on a malformed string *)
| AttributeError   (* [None.username] *)
| IntegrityError   (* a constraint of the store refuses a statement *)
| OverflowError.   (* an integer too large for the store is bound to a query *)

Inductive outcome (A : Type) :=
| Return (a : A)
| Raise (e : exn).
Arguments Return {A} a.
Arguments Raise {A} e.

(* ================================================================= *)
(** ** The models *)

Module User.
Record t := mk {
  id : Z;
  username : string;       (* unique, not null *)
  email : string;          (* unique, not null *)
  password : string;       (* the hash *)
  role : string;
  created_at : datetime
}.

Definition to_dict (self : t) : json :=
  JObj [ ("id", JInt (id self));
         ("username", JStr (username self));
         ("email", JStr (email self));
         ("role", JStr (role self));
         ("created_at", JStr (strftime (created_at self))) ].
End User.

Module Attendance.
Record t := mk {
  id : Z;
  user_id : Z;
  check_in_time : option datetime;
  check_out_time : option datetime;   (* [None]: the session is open *)
  status : string;
  notes : string;
  date : date
}.

Definition time_json (x : option datetime) : json :=
  match x with
  | Some t => JStr (strftime t)
  | None => JNull
  end.

(** [user] is what the backref [self.user] loads: the row of [User] whose
    id is [self.user_id], if there is one. *)
Definition to_dict (user : option User.t) (self : t) : outcome json :=
  match user with
  | None => Raise AttributeError
  | Some u =>
      Return (JObj [ ("id", JInt (id self));
                     ("user_id", JInt (user_id self));
                     ("username", JStr (User.username u));
                     ("check_in_time", time_json (check_in_time self));
                     ("check_out_time", time_json (check_out_time self));
                     ("status", JStr (status self));
                     ("notes", JStr (notes self));
                     ("date", JStr (strftime_date (date self) "")) ])
  end.

Definition set_check_out_time (x : option datetime) (self : t) : t :=
  mk (id self) (user_id self) (check_in_time self) x (status self) (notes self)
     (date self).
Definition set_status (x : string) (self : t) : t :=
  mk (id self) (user_id self) (check_in_time self) (check_out_time self) x
     (notes self) (date self).
Definition set_notes (x : string) (self : t) : t :=
  mk (id self) (user_id self) (check_in_time self) (check_out_time self)
     (status self) x (date self).
End Attendance.

Definition set_username (x : string) (u : User.t) : User.t :=
  User.mk (User.id u) x (User.email u) (User.password u) (User.role u)
          (User.created_at u).
Definition set_email (x : string) (u : User.t) : User.t :=
  User.mk (User.id u) (User.username u) x (User.password u) (User.role u)
          (User.created_at u).
Definition set_role (x : string) (u : User.t) : User.t :=
  User.mk (User.id u) (User.username u) (User.email u) (User.password u) x
          (User.created_at u).

(* ================================================================= *)
(** ** The store, the session and the clock *)

Record db := mkdb {
  users : list User.t;
  attendance : list Attendance.t
}.

(** What the unit of work holds until it is flushed. *)
Inductive stmt :=
| InsertUser (username email password role : string)
| UpdateUser (u : User.t)
| DeleteUser (u : User.t)
| InsertAttendance (user_id : Z) (status notes : string)
| UpdateAttendance (a : Attendance.t)
| DeleteAttendance (a : Attendance.t).

Record world := mkworld {
  store : db;                  (* the committed tables *)
  session : list stmt;         (* [db.session]: pending work *)
  utcnow : nat -> datetime;    (* the successive readings of the clock *)
  ticks : nat                  (* how many readings were taken *)
}.

Definition M (A : Type) : Type := world -> outcome A * world.

Definition ret {A} (a : A) : M A := fun w => (Return a, w).

Definition bind {A B} (m : M A) (k : A -> M B) : M B :=
  fun w =>
    match m w with
    | (Return a, w') => k a w'
    | (Raise e, w') => (Raise e, w')
    end.

Definition raise {A} (e : exn) : M A := fun w => (Raise e, w).

(** [try: body / except Exception as e: handler e] *)
Definition try_except {A} (body : M A) (handler : exn -> M A) : M A :=
  fun w =>
    match body w with
    | (Return a, w') => (Return a, w')
    | (Raise e, w') => handler e w'
    end.

Definition lift {A} (o : outcome A) : M A := fun w => (o, w).

Declare Scope monad_scope.
Delimit Scope monad_scope with monad.
Notation "x <- c ;; k" := (bind c (fun x => k))
  (at level 61, c at next level, right associativity) : monad_scope.
Notation "c ;;; k" := (bind c (fun _ => k))
  (at level 61, right associativity) : monad_scope.
Open Scope monad_scope.

(** [datetime.utcnow()] *)
Definition now : M datetime :=
  fun w => (Return (utcnow w (ticks w)),
            mkworld (store w) (session w) (utcnow w) (S (ticks w))).

Definition get_store : M db := fun w => (Return (store w), w).

Definition put_store (d : db) : M unit :=
  fun w => (Return tt, mkworld d (session w) (utcnow w) (ticks w)).

(** ** Queries *)

Definition first {A} (l : list A) : option A :=
  match l with
  | [] => None
  | x :: _ => Some x
  end.

(** The row of given tables under a primary key. *)
Definition get_user_in (d : db) (id : Z) : option User.t :=
  first (filter (fun u => User.id u =? id) (users d)).

Definition get_attendance_in (d : db) (id : Z) : option Attendance.t :=
  first (filter (fun a => Attendance.id a =? id) (attendance d)).

(** The integers the store can hold: SQLite's INTEGER is a signed 64-bit
    number. *)
Definition int64 (z : Z) : bool := (- 2 ^ 63 <=? z) && (z <? 2 ^ 63).

(** [User.query.get(id)]: the row under the key, [None] when the table has
    none, and OverflowError when the key is no integer of the store: the
    driver refuses to bind it to the query ([Python int too large to convert
    to SQLite INTEGER]).  The route converter [<int:...>] and a JSON body
    both let such an integer through.  The key of a stored row is an integer
    of the store, so a key that finds a row is not refused. *)
Definition User_query_get (id : Z) : M (option User.t) :=
  d <- get_store ;;
  match get_user_in d id with
  | Some user => ret (Some user)
  | None => if int64 id then ret None else raise OverflowError
  end.

(** [Attendance.query.get(id)], likewise. *)
Definition Attendance_query_get (id : Z) : M (option Attendance.t) :=
  d <- get_store ;;
  match get_attendance_in d id with
  | Some record => ret (Some record)
  | None => if int64 id then ret None else raise OverflowError
  end.

(** [record.user] and the reload of a user after a commit: the row whose key
    is a value read from the store itself, which the driver never refuses. *)
Definition load_user (id : Z) : M (option User.t) :=
  d <- get_store ;; ret (get_user_in d id).

(** The id the store gives to a new row: the largest one in use plus one. *)
Definition next_id (ids : list Z) : Z := fold_right Z.max 0 ids + 1.

(** ** Statements *)

(** The unique indexes on [username] and [email], for a row that is written
    with identity [id]. *)
Definition unique_ok (id : Z) (username email : string) (l : list User.t) : bool :=
  forallb (fun u => (User.id u =? id)
                    || (negb (String.eqb (User.username u) username)
                        && negb (String.eqb (User.email u) email)))%bool l.

Definition replace_user (u : User.t) (l : list User.t) : list User.t :=
  map (fun v => if User.id v =? User.id u then u else v) l.

Definition replace_attendance (a : Attendance.t) (l : list Attendance.t)
  : list Attendance.t :=
  map (fun b => if Attendance.id b =? Attendance.id a then a else b) l.

(** One statement of a flush, run against the tables of the transaction.
    Column defaults ([datetime.utcnow]) are read when the row is written.
    The result is the primary key of the row. *)
Definition exec (s : stmt) : M Z :=
  match s with
  | InsertUser username email password role =>
      t <- now ;;
      d <- get_store ;;
      let id := next_id (map User.id (users d)) in
      if unique_ok id username email (users d)
      then put_store (mkdb (users d ++ [User.mk id username email password role t])
                           (attendance d)) ;;; ret id
      else raise IntegrityError
  | UpdateUser u =>
      d <- get_store ;;
      if unique_ok (User.id u) (User.username u) (User.email u) (users d)
      then put_store (mkdb (replace_user u (users d)) (attendance d)) ;;;
           ret (User.id u)
      else raise IntegrityError
  | DeleteUser u =>
      (* cascade='all, delete-orphan': the user's records go first *)
      d <- get_store ;;
      put_store (mkdb (filter (fun v => negb (User.id v =? User.id u)) (users d))
                      (filter (fun a => negb (Attendance.user_id a =? User.id u))
                              (attendance d))) ;;;
      ret (User.id u)
  | InsertAttendance user_id status notes =>
      (* [check_in_time] and [date] both default to [datetime.utcnow]; the
         Date column keeps the day of its reading *)
      t_in <- now ;;
      t_date <- now ;;
      d <- get_store ;;
      let id := next_id (map Attendance.id (attendance d)) in
      put_store (mkdb (users d)
                      (attendance d ++
                       [Attendance.mk id user_id (Some t_in) None status notes
                                      (dt_date t_date)])) ;;;
      ret id
  | UpdateAttendance a =>
      d <- get_store ;;
      put_store (mkdb (users d) (replace_attendance a (attendance d))) ;;;
      ret (Attendance.id a)
  | DeleteAttendance a =>
      d <- get_store ;;
      put_store (mkdb (users d)
                      (filter (fun b => negb (Attendance.id b =? Attendance.id a))
                              (attendance d))) ;;;
      ret (Attendance.id a)
  end.

Fixpoint flush (l : list stmt) : M (list Z) :=
  match l with
  | [] => ret []
  | s :: rest => k <- exec s ;; ks <- flush rest ;; ret (k :: ks)
  end.

(** ** The session *)

(** [db.session.add(obj)] *)
Definition session_add (s : stmt) : M unit :=
  fun w => (Return tt, mkworld (store w) (session w ++ [s]) (utcnow w) (ticks w)).

Definition same_object (s s' : stmt) : bool :=
  match s, s' with
  | UpdateUser u, UpdateUser v => User.id u =? User.id v
  | UpdateAttendance a, UpdateAttendance b => Attendance.id a =? Attendance.id b
  | _, _ => false
  end.

Fixpoint touch (s : stmt) (l : list stmt) : list stmt :=
  match l with
  | [] => [s]
  | s' :: rest => if same_object s s' then s :: rest else s' :: touch s rest
  end.

(** An attribute of a loaded object is assigned: the session holds the object
    as dirty, in its latest state. *)
Definition session_dirty (s : stmt) : M unit :=
  fun w => (Return tt, mkworld (store w) (touch s (session w)) (utcnow w) (ticks w)).

(** [db.session.commit()]: the pending work is flushed in one transaction.
    When a statement is refused nothing reaches the committed tables and the
    exception propagates; the session keeps its work until it is rolled
    back.  On success the primary keys of the flushed objects are known. *)
Definition commit : M (list Z) :=
  fun w =>
    match flush (session w) w with
    | (Return ks, w') => (Return ks, mkworld (store w') [] (utcnow w') (ticks w'))
    | (Raise e, w') => (Raise e, mkworld (store w) (session w) (utcnow w') (ticks w'))
    end.

(** [db.session.rollback()] *)
Definition rollback : M unit :=
  fun w => (Return tt, mkworld (store w) [] (utcnow w) (ticks w)).

(* ================================================================= *)
(** ** Requests and responses *)

(** The JSON object sent to [POST /api/users] and [PUT /api/users/<id>]. *)
Record user_json := mk_user_json {
  ub_username : option string;
  ub_email : option string;
  ub_password : option string;
  ub_role : option string
}.

(** The JSON object sent to [POST /api/attendance]. *)
Record mark_json := mk_mark_json {
  mb_user_id : option Z;
  mb_status : option string;
  mb_notes : option string
}.

(** The JSON object sent to [PUT /api/attendance/<id>]. *)
Record attendance_json := mk_attendance_json {
  ab_status : option string;
  ab_notes : option string;
  ab_check_out_time : option string
}.

(** [data.get(k, default)] *)
Definition get_default {A} (x : option A) (default : A) : A :=
  match x with
  | Some v => v
  | None => default
  end.

(** What a view returns: [jsonify(...), status]. *)
Definition response : Type := json * Z.

Definition error (msg : string) : json := JObj [("error", JStr msg)].
Definition message (msg : string) : json := JObj [("message", JStr msg)].

(** Truth value of a query-string argument: [None] and [''] are false. *)
Definition given (x : option string) : option string :=
  match x with
  | Some EmptyString => None
  | _ => x
  end.

(** [.count()] *)
Definition count {A} (p : A -> bool) (l : list A) : Z :=
  Z.of_nat (List.length (filter p l)).

Definition has_status (s : string) (a : Attendance.t) : bool :=
  String.eqb (Attendance.status a) s.

Definition of_user (user_id : Z) (a : Attendance.t) : bool :=
  Attendance.user_id a =? user_id.

(** [[record.to_dict() for record in l]], each record loading its user. *)
Fixpoint to_dicts (d : db) (l : list Attendance.t) : outcome (list json) :=
  match l with
  | [] => Return []
  | a :: rest =>
      match Attendance.to_dict (get_user_in d (Attendance.user_id a)) a with
      | Raise e => Raise e
      | Return j =>
          match to_dicts d rest with
          | Raise e => Raise e
          | Return js => Return (j :: js)
          end
      end
  end.

(* ================================================================= *)
(** ** The views *)

Section Views.

(** [str(e)]: the text of an exception. *)
Variable str : exn -> string.
(** [werkzeug.security.generate_password_hash] *)
Variable generate_password_hash : string -> string.
(** [datetime.strptime(s, '%Y-%m-%d').date()]; [None] when it raises. *)
Variable strptime : string -> option date.
(** [datetime.fromisoformat(s)]; [None] when it raises. *)
Variable fromisoformat : string -> option datetime.
(** The integer that the store compares an integer column with when the
    parameter it is given is a text; [None] when the text is no integer. *)
Variable numeric : string -> option Z.

Definition internal_error (e : exn) : M response := ret (error (str e), 500).

(** [GET /api/users], lines 72-78. *)
Definition get_users : M response :=
  try_except
    (d <- get_store ;;
     ret (JList (map User.to_dict (users d)), 200))
    internal_error.

(** [POST /api/users], lines 81-108.  [user.set_password] stores
    [generate_password_hash(password)].  After the commit [user.to_dict()]
    reads the row under the key that the flush gave it; that row exists
    (lemma [get_user_in_new]), the other branch is never taken. *)
Definition create_user (data : option user_json) : M response :=
  try_except
    (match data with
     | None => ret (error "Missing required fields", 400)
     | Some data =>
         match ub_username data, ub_email data, ub_password data with
         | Some username, Some email, Some password =>
             d <- get_store ;;
             match first (filter (fun u => String.eqb (User.username u) username)
                                 (users d)) with
             | Some _ => ret (error "Username already exists", 400)
             | None =>
                 match first (filter (fun u => String.eqb (User.email u) email)
                                     (users d)) with
                 | Some _ => ret (error "Email already exists", 400)
                 | None =>
                     session_add (InsertUser username email
                                    (generate_password_hash password)
                                    (get_default (ub_role data) "user")) ;;;
                     ks <- commit ;;
                     user <- load_user (hd 0 ks) ;;
                     match user with
                     | Some user =>
                         ret (JObj [ ("message", JStr "User created successfully");
                                     ("user", User.to_dict user) ], 201)
                     | None => raise AttributeError
                     end
                 end
             end
         | _, _, _ => ret (error "Missing required fields", 400)
         end
     end)
    (fun e => rollback ;;; internal_error e).

(** [GET /api/users/<id>], lines 111-119. *)
Definition get_user (user_id : Z) : M response :=
  try_except
    (user <- User_query_get user_id ;;
     match user with
     | None => ret (error "User not found", 404)
     | Some user => ret (User.to_dict user, 200)
     end)
    internal_error.

(** [if k in data: obj.attr = data[k]]; [data] may be [None]. *)
Definition assign {R B} (data : option B) (get : B -> option string)
    (set : string -> R -> R) (dirty : R -> stmt) (obj : R) : M R :=
  match data with
  | None => raise TypeError
  | Some data =>
      match get data with
      | Some v => session_dirty (dirty (set v obj)) ;;; ret (set v obj)
      | None => ret obj
      end
  end.

(** [PUT /api/users/<id>], lines 122-142. *)
Definition update_user (user_id : Z) (data : option user_json) : M response :=
  try_except
    (user <- User_query_get user_id ;;
     match user with
     | None => ret (error "User not found", 404)
     | Some user =>
         user <- assign data ub_username set_username UpdateUser user ;;
         user <- assign data ub_email set_email UpdateUser user ;;
         user <- assign data ub_role set_role UpdateUser user ;;
         commit ;;;
         ret (JObj [ ("message", JStr "User updated successfully");
                     ("user", User.to_dict user) ], 200)
     end)
    (fun e => rollback ;;; internal_error e).

(** [DELETE /api/users/<id>], lines 145-157. *)
Definition delete_user (user_id : Z) : M response :=
  try_except
    (user <- User_query_get user_id ;;
     match user with
     | None => ret (error "User not found", 404)
     | Some user =>
         session_add (DeleteUser user) ;;;
         commit ;;;
         ret (message "User deleted successfully", 200)
     end)
    (fun e => rollback ;;; internal_error e).

(** The rows a [filter_by(user_id=s)] keeps when [s] is a text. *)
Definition user_id_is (s : string) (a : Attendance.t) : bool :=
  match numeric s with
  | Some n => Attendance.user_id a =? n
  | None => false
  end.

(** [GET /api/attendance], lines 161-177.  Both arguments come from the query
    string and are texts. *)
Definition get_attendance (date user_id : option string) : M response :=
  try_except
    (d <- get_store ;;
     let query := attendance d in
     query <- match given date with
              | Some s =>
                  match strptime s with
                  | Some day => ret (filter (fun a => date_eqb (Attendance.date a) day)
                                            query)
                  | None => raise ValueError
                  end
              | None => ret query
              end ;;
     let query := match given user_id with
                  | Some s => filter (user_id_is s) query
                  | None => query
                  end in
     records <- lift (to_dicts d query) ;;
     ret (JList records, 200))
    internal_error.

(** [POST /api/attendance], lines 180-217. *)
Definition mark_attendance (data : option mark_json) : M response :=
  try_except
    (match data with
     | None => ret (error "user_id is required", 400)
     | Some data =>
         match mb_user_id data with
         | None => ret (error "user_id is required", 400)
         | Some user_id =>
             user <- User_query_get user_id ;;
             match user with
             | None => ret (error "User not found", 404)
             | Some _ =>
                 t <- now ;;
                 let today := dt_date t in
                 d <- get_store ;;
                 let existing :=
                   first (filter (fun a => (Attendance.user_id a =? user_id)
                                           && date_eqb (Attendance.date a) today)%bool
                                 (attendance d)) in
                 let check_in :=
                   session_add (InsertAttendance user_id
                                  (get_default (mb_status data) "present")
                                  (get_default (mb_notes data) "")) ;;;
                   ret "Check-in recorded successfully" in
                 msg <- match existing with
                        | Some existing =>
                            match Attendance.check_out_time existing with
                            | None =>
                                t_out <- now ;;
                                session_dirty
                                  (UpdateAttendance
                                     (Attendance.set_check_out_time (Some t_out)
                                                                    existing)) ;;;
                                ret "Check-out recorded successfully"
                            | Some _ => check_in
                            end
                        | None => check_in
                        end ;;
                 commit ;;;
                 ret (message msg, 201)
             end
         end
     end)
    (fun e => rollback ;;; internal_error e).


(** [if 'check_out_time' in data:
      record.check_out_time = datetime.fromisoformat(data['check_out_time'])] *)
Definition parse_check_out (data : option attendance_json) (record : Attendance.t)
  : M Attendance.t :=
  match data with
  | None => raise TypeError
  | Some data =>
      match ab_check_out_time data with
      | Some s =>
          match fromisoformat s with
          | Some t =>
              let record := Attendance.set_check_out_time (Some t) record in
              session_dirty (UpdateAttendance record) ;;; ret record
          | None => raise ValueError
          end
      | None => ret record
      end
  end.

(** [PUT /api/attendance/<id>], lines 231-251. *)
Definition update_attendance (attendance_id : Z) (data : option attendance_json)
  : M response :=
  try_except
    (record <- Attendance_query_get attendance_id ;;
     match record with
     | None => ret (error "Attendance record not found", 404)
     | Some record =>
         record <- assign data ab_status Attendance.set_status UpdateAttendance
                          record ;;
         record <- assign data ab_notes Attendance.set_notes UpdateAttendance
                          record ;;
         record <- parse_check_out data record ;;
         commit ;;;
         user <- load_user (Attendance.user_id record) ;;
         j <- lift (Attendance.to_dict user record) ;;
         ret (JObj [ ("message", JStr "Attendance updated successfully");
                     ("record", j) ], 200)
     end)
    (fun e => rollback ;;; internal_error e).

(** [DELETE /api/attendance/<id>], lines 254-266. *)
Definition delete_attendance (attendance_id : Z) : M response :=
  try_except
    (record <- Attendance_query_get attendance_id ;;
     match record with
     | None => ret (error "Attendance record not found", 404)
     | Some record =>
         session_add (DeleteAttendance record) ;;;
         commit ;;;
         ret (message "Attendance record deleted successfully", 200)
     end)
    (fun e => rollback ;;; internal_error e).

(** [GET /api/analytics/summary], lines 270-286. *)
Definition get_summary : M response :=
  try_except
    (d <- get_store ;;
     let total_users := Z.of_nat (List.length (users d)) in
     let total_present := count (has_status "present") (attendance d) in
     let total_absent := count (has_status "absent") (attendance d) in
     let total_late := count (has_status "late") (attendance d) in
     ret (JObj [ ("total_users", JInt total_users);
                 ("total_present", JInt total_present);
                 ("total_absent", JInt total_absent);
                 ("total_late", JInt total_late);
                 ("attendance_rate",
                  percentage total_present (total_present + total_absent)) ],
          200))
    internal_error.

(** [GET /api/analytics/user/<id>], lines 289-310. *)
Definition get_user_analytics (user_id : Z) : M response :=
  try_except
    (user <- User_query_get user_id ;;
     match user with
     | None => ret (error "User not found", 404)
     | Some user =>
         d <- get_store ;;
         let by_status s a := (of_user user_id a && has_status s a)%bool in
         let total := count (of_user user_id) (attendance d) in
         let present := count (by_status "present") (attendance d) in
         let absent := count (by_status "absent") (attendance d) in
         let late := count (by_status "late") (attendance d) in
         ret (JObj [ ("username", JStr (User.username user));
                     ("total_records", JInt total);
                     ("present", JInt present);
                     ("absent", JInt absent);
                     ("late", JInt late);
                     ("attendance_percentage", percentage present total) ],
              200)
     end)
    internal_error.


End Views.

(* ================================================================= *)
(** * The vocabulary of the statements *)

(** ** Store invariants and reachable stores *)

(** Every attendance record references a live user. *)
Definition fk_ok (d : db) : Prop :=
  forall a, In a (attendance d) ->
            exists u, In u (users d) /\ User.id u = Attendance.user_id a.

(** Primary keys, and the unique columns of [User]. *)
Definition keys_ok (d : db) : Prop :=
  NoDup (map User.id (users d))
  /\ NoDup (map Attendance.id (attendance d))
  /\ NoDup (map User.username (users d))
  /\ NoDup (map User.email (users d)).

(** The requests that write. *)
Inductive request :=
| PostUser (data : option user_json)
| PutUser (user_id : Z) (data : option user_json)
| DeleteUserOf (user_id : Z)
| PostAttendance (data : option mark_json)
| PutAttendance (attendance_id : Z) (data : option attendance_json)
| DeleteAttendanceOf (attendance_id : Z).

Definition serve (str : exn -> string) (hash : string -> string)
    (fromisoformat : string -> option datetime) (r : request) : M response :=
  match r with
  | PostUser data => create_user str hash data
  | PutUser user_id data => update_user str user_id data
  | DeleteUserOf user_id => delete_user str user_id
  | PostAttendance data => mark_attendance str data
  | PutAttendance attendance_id data =>
      update_attendance str fromisoformat attendance_id data
  | DeleteAttendanceOf attendance_id => delete_attendance str attendance_id
  end.

(** The worlds that requests lead to from the tables [db.create_all()]
    creates, under any clock. *)
Inductive reachable (str : exn -> string) (hash : string -> string)
    (fromisoformat : string -> option datetime) : world -> Prop :=
| reach_created (clock : nat -> datetime) (n : nat) :
    reachable str hash fromisoformat (mkworld (mkdb [] []) [] clock n)
| reach_served (w : world) (r : request) :
    reachable str hash fromisoformat w ->
    reachable str hash fromisoformat (snd (serve str hash fromisoformat r w)).

(** ** Analytics *)

(** A table splits along a status: three named ones and the rest. *)
Definition other_status (a : Attendance.t) : bool :=
  (negb (has_status "present" a) && negb (has_status "absent" a)
   && negb (has_status "late" a))%bool.

(** The float of the decimal [n / 100]. *)
Definition hundredths (n : Z) : float :=
  PrimFloat.div (float_of_Z n) (float_of_Z 100).

(** [n / 100] is a two-decimal number nearest to [100 * num / den]. *)
Definition nearest (n num den : Z) : bool :=
  2 * Z.abs (10000 * num - n * den) <=? den.

Definition spec_float_eqb (x y : spec_float) : bool :=
  match x, y with
  | S754_zero s, S754_zero s' => Bool.eqb s s'
  | S754_infinity s, S754_infinity s' => Bool.eqb s s'
  | S754_nan, S754_nan => true
  | S754_finite s m e, S754_finite s' m' e' =>
      (Bool.eqb s s' && Pos.eqb m m' && (e =? e'))%bool
  | _, _ => false
  end.

(** Does the float that [percentage] yields denote a nearest two-decimal
    number?  The two candidates are the neighbours of the exact quotient. *)
Definition percentage_checked (num den : Z) : bool :=
  match percentage num den with
  | JFloat f =>
      let lo := 10000 * num / den in
      ((nearest lo num den && spec_float_eqb (Prim2SF f) (Prim2SF (hundredths lo)))
       || (nearest (lo + 1) num den
           && spec_float_eqb (Prim2SF f) (Prim2SF (hundredths (lo + 1)))))%bool
  | _ => false
  end.

Definition range (lo len : nat) : list Z := map Z.of_nat (seq lo len).

(** Every pair of counts [num <= den] with [1 <= den <= bound]. *)
Definition checked_up_to (bound : nat) : bool :=
  forallb (fun den => forallb (fun num => (den <? num) || percentage_checked num den)%bool
                              (range 0 (S bound)))
          (range 1 bound).

(** The largest number of records for which the float computation was
    compared, case by case, with the exact quotient. *)
Definition checked_bound : nat := 200.

(** ** What the views compute *)

(** The row that [create_user] writes. *)
Definition created_user (hash : string -> string) (w : world)
    (username email password : string) (role : option string) : User.t :=
  User.mk (next_id (map User.id (users (store w)))) username email (hash password)
          (get_default role "user") (utcnow w (ticks w)).

(** [if k in data: obj.attr = data[k]], as a function. *)
Definition apply_field {R} (x : option string) (set : string -> R -> R) (obj : R) : R :=
  match x with
  | Some v => set v obj
  | None => obj
  end.

Definition is_some {A} (x : option A) : bool :=
  match x with
  | Some _ => true
  | None => false
  end.

Definition updated_user (b : user_json) (u : User.t) : User.t :=
  apply_field (ub_role b) set_role
    (apply_field (ub_email b) set_email
       (apply_field (ub_username b) set_username u)).

(** Does the body assign any of the three attributes? *)
Definition user_supplied (b : user_json) : bool :=
  (is_some (ub_username b) || is_some (ub_email b) || is_some (ub_role b))%bool.

Definition user_updated_message (u : User.t) : json :=
  JObj [ ("message", JStr "User updated successfully"); ("user", User.to_dict u) ].

(** [Attendance.query.filter_by(user_id=..., date=today).first()] *)
Definition todays_first (d : db) (user_id : Z) (today : date) : option Attendance.t :=
  first (filter (fun a => (Attendance.user_id a =? user_id)
                          && date_eqb (Attendance.date a) today)%bool
                (attendance d)).

(** The record that the check-in path writes. *)
Definition checked_in (w : world) (user_id : Z) (b : mark_json) : Attendance.t :=
  Attendance.mk (next_id (map Attendance.id (attendance (store w)))) user_id
                (Some (utcnow w (S (ticks w)))) None
                (get_default (mb_status b) "present") (get_default (mb_notes b) "")
                (dt_date (utcnow w (S (S (ticks w))))).

Definition check_in_path (w : world) (user_id : Z) (b : mark_json)
  : outcome response * world :=
  (Return (message "Check-in recorded successfully", 201),
   mkworld (mkdb (users (store w))
                 (attendance (store w) ++ [checked_in w user_id b]))
           [] (utcnow w) (S (S (S (ticks w))))).

Definition check_out_path (w : world) (existing : Attendance.t)
  : outcome response * world :=
  (Return (message "Check-out recorded successfully", 201),
   mkworld (mkdb (users (store w))
                 (replace_attendance
                    (Attendance.set_check_out_time (Some (utcnow w (S (ticks w))))
                                                   existing)
                    (attendance (store w))))
           [] (utcnow w) (S (S (ticks w)))).

(** [datetime.fromisoformat(data['check_out_time'])], when the key is there. *)
Definition parsed_check_out (fromisoformat : string -> option datetime)
    (b : attendance_json) : outcome (option datetime) :=
  match ab_check_out_time b with
  | None => Return None
  | Some s =>
      match fromisoformat s with
      | Some t => Return (Some t)
      | None => Raise ValueError
      end
  end.

Definition updated_record (b : attendance_json) (t : option datetime)
    (r : Attendance.t) : Attendance.t :=
  let r := apply_field (ab_notes b) Attendance.set_notes
             (apply_field (ab_status b) Attendance.set_status r) in
  match t with
  | Some t => Attendance.set_check_out_time (Some t) r
  | None => r
  end.

Definition attendance_supplied (b : attendance_json) : bool :=
  (is_some (ab_status b) || is_some (ab_notes b) || is_some (ab_check_out_time b))%bool.

(** [j] is the public representation of [a]: its columns and the username of
    the user it belongs to. *)
Definition represents (d : db) (a : Attendance.t) (j : json) : Prop :=
  exists u, get_user_in d (Attendance.user_id a) = Some u
            /\ User.id u = Attendance.user_id a
            /\ j = JObj [ ("id", JInt (Attendance.id a));
                          ("user_id", JInt (Attendance.user_id a));
                          ("username", JStr (User.username u));
                          ("check_in_time",
                           Attendance.time_json (Attendance.check_in_time a));
                          ("check_out_time",
                           Attendance.time_json (Attendance.check_out_time a));
                          ("status", JStr (Attendance.status a));
                          ("notes", JStr (Attendance.notes a));
                          ("date", JStr (strftime_date (Attendance.date a) "")) ].

(** What [request.args.get('date')] asks for: no filter, a day, or a text
    that [strptime] refuses. *)
Definition date_filter (strptime : string -> option date) (arg : option string)
  : outcome (option date) :=
  match given arg with
  | None => Return None
  | Some s =>
      match strptime s with
      | Some day => Return (Some day)
      | None => Raise ValueError
      end
  end.

(** The records that the two filters keep. *)
Definition kept (numeric : string -> option Z) (day : option date)
    (user_id : option string) (a : Attendance.t) : bool :=
  (match day with
   | Some d => date_eqb (Attendance.date a) d
   | None => true
   end
   && match given user_id with
      | Some s => user_id_is numeric s a
      | None => true
      end)%bool.

(** The answer of a view to a key that finds no row: 404 when the key is an
    integer of the store, 500 with the text of the OverflowError when it is
    not. *)
Definition missing (str : exn -> string) (id : Z) (what : string) : response :=
  if int64 id then (error what, 404) else (error (str OverflowError), 500).

(** A view run from [w] returned a response, left nothing pending, and, when
    the response is an error, left the committed tables as they were. *)
Definition answered (w : world) (res : outcome response * world) : Prop :=
  exists j status w',
    res = (Return (j, status), w')
    /\ session w' = []
    /\ (status = 200 \/ status = 201
        \/ ((status = 400 \/ status = 404 \/ status = 500)
            /\ store w' = store w
            /\ exists msg, j = error msg)).

(** ** Concrete data *)

(** A [str] for exceptions. *)
Definition exn_name (e : exn) : string :=
  match e with
  | TypeError => "TypeError"
  | ValueError => "ValueError"
  | AttributeError => "AttributeError"
  | IntegrityError => "IntegrityError"
  | OverflowError => "OverflowError"
  end.

Definition tagged (password : string) : string := "hash:" ++ password.

(** Text functions to run the views with: a date [YYYY-MM-DD], a timestamp
    [YYYY-MM-DD HH:MM:SS], a decimal integer, a tagged password. *)
Definition iso_date (s : string) : option date :=
  match digits_val 0 (substring 0 4 s), digits_val 0 (substring 5 2 s),
        digits_val 0 (substring 8 2 s) with
  | Some y, Some m, Some d =>
      if ((String.length s =? 10)%nat
          && String.eqb (substring 4 1 s) "-" && String.eqb (substring 7 1 s) "-")%bool
      then Some (mkdate y m d) else None
  | _, _, _ => None
  end.

Definition iso_datetime (s : string) : option datetime :=
  match read_timestamp s with
  | Some (y, mo, d, h, mi, se) => Some (mkdatetime (mkdate y mo d) h mi se 0)
  | None => None
  end.

Definition decimal (s : string) : option Z := digits_val 0 s.

Definition noon : datetime := mkdatetime (mkdate 2024 5 17) 12 0 0 0.

Definition today : date := mkdate 2024 5 17.
Definition day_before : date := mkdate 2024 5 16.

Definition alice : User.t := User.mk 1 "alice" "a@x.com" "hash:p" "user" noon.
Definition bob : User.t := User.mk 2 "bob" "b@x.com" "hash:q" "admin" noon.

Definition open_record : Attendance.t :=
  Attendance.mk 1 1 (Some noon) None "present" "" today.

(** Two users, no record, a clock that stays on one day. *)
Definition office : world := mkworld (mkdb [alice; bob] []) [] (fun _ => noon) 0.

(** Two users and five records; alice has an open record today. *)
Definition roster : world :=
  mkworld
    (mkdb [alice; bob]
          [ open_record;
            Attendance.mk 2 1 (Some noon) (Some noon) "absent" "ill" day_before;
            Attendance.mk 3 2 (Some noon) (Some noon) "late" "" day_before;
            Attendance.mk 4 1 (Some noon) (Some noon) "leave" "" (mkdate 2024 5 15);
            Attendance.mk 5 2 (Some noon) (Some noon) "absent" "" today ])
    [] (fun _ => noon) 0.

Definition body_of (user_id : Z) : mark_json := mk_mark_json (Some user_id) None None.

(** ** Repeated requests *)

(** [k] times [POST /api/attendance] with the same body, one after the
    other. *)
Definition mark_times (str : exn -> string) (b : mark_json) (k : nat) (w : world)
  : world :=
  Nat.iter k (fun w => snd (mark_attendance str (Some b) w)) w.

(** One user whose only record of today is closed. *)
Definition closed_day : world :=
  mkworld (mkdb [alice]
                [Attendance.mk 1 1 (Some noon) (Some noon) "present" "" today])
          [] (fun _ => noon) 0.

(* ================================================================= *)
(** * Properties *)

Example percentage_third :
  percentage 1 3 = JFloat (PrimFloat.div (float_of_Z 3333) (float_of_Z 100)).
Proof. vm_compute. reflexivity. Qed.

(** ** Counting *)

Lemma count_nonneg {A} (p : A -> bool) (l : list A) : 0 <= count p l.
Proof. unfold count. lia. Qed.

Lemma count_nil {A} (p : A -> bool) : count p [] = 0.
Proof. reflexivity. Qed.

Lemma count_cons {A} (p : A -> bool) (x : A) (l : list A) :
  count p (x :: l) = (if p x then 1 else 0) + count p l.
Proof.
  unfold count. simpl. destruct (p x); cbn [List.length]; lia.
Qed.

Lemma count_app {A} (p : A -> bool) (l l' : list A) :
  count p (l ++ l') = count p l + count p l'.
Proof.
  induction l as [|x l IH]; [reflexivity|].
  simpl app. rewrite !count_cons, IH. lia.
Qed.

Lemma has_status_exclusive s s' a :
  s <> s' -> has_status s a = true -> has_status s' a = false.
Proof.
  unfold has_status. intros Hne H.
  apply String.eqb_eq in H. apply String.eqb_neq. congruence.
Qed.

Lemma count_by_status (q : Attendance.t -> bool) (l : list Attendance.t) :
  count q l =
    count (fun a => q a && has_status "present" a)%bool l
    + count (fun a => q a && has_status "absent" a)%bool l
    + count (fun a => q a && has_status "late" a)%bool l
    + count (fun a => q a && other_status a)%bool l.
Proof.
  induction l as [|a l IH]; [reflexivity|].
  rewrite !count_cons, IH. unfold other_status.
  destruct (q a); cbn [andb]; [|lia].
  destruct (has_status "present" a) eqn:Hp.
  - rewrite (has_status_exclusive "present" "absent" a),
            (has_status_exclusive "present" "late" a);
      try assumption; try discriminate.
    cbn [andb negb]. lia.
  - destruct (has_status "absent" a) eqn:Ha.
    + rewrite (has_status_exclusive "absent" "late" a);
        try assumption; try discriminate.
      cbn [andb negb]. lia.
    + destruct (has_status "late" a); cbn [andb negb]; lia.
Qed.

(** ** Floats *)

Lemma spec_float_eqb_eq x y : spec_float_eqb x y = true -> x = y.
Proof.
  destruct x, y; simpl; try discriminate; try reflexivity.
  - intros H. apply Bool.eqb_prop in H. congruence.
  - intros H. apply Bool.eqb_prop in H. congruence.
  - intros H. apply andb_prop in H. destruct H as [H He].
    apply andb_prop in H. destruct H as [Hs Hm].
    apply Bool.eqb_prop in Hs. apply Pos.eqb_eq in Hm. apply Z.eqb_eq in He.
    congruence.
Qed.

Lemma in_range z lo len :
  Z.of_nat lo <= z < Z.of_nat lo + Z.of_nat len -> In z (range lo len).
Proof.
  intros H. unfold range. apply in_map_iff. exists (Z.to_nat z).
  split; [lia|]. apply in_seq. lia.
Qed.

Lemma checked_up_to_sound bound num den :
  checked_up_to bound = true ->
  0 <= num <= den -> 0 < den <= Z.of_nat bound ->
  percentage_checked num den = true.
Proof.
  unfold checked_up_to. intros H Hnum Hden.
  rewrite forallb_forall in H.
  specialize (H den (in_range den 1 bound ltac:(lia))).
  rewrite forallb_forall in H.
  specialize (H num (in_range num 0 (S bound) ltac:(lia))).
  apply orb_prop in H. destruct H as [H|H]; [|exact H].
  apply Z.ltb_lt in H. lia.
Qed.

Lemma percentage_checked_sound num den :
  percentage_checked num den = true ->
  exists n, percentage num den = JFloat (hundredths n)
            /\ 2 * Z.abs (10000 * num - n * den) <= den.
Proof.
  unfold percentage_checked. destruct (percentage num den); try discriminate.
  intros H. apply orb_prop in H.
  destruct H as [H|H]; apply andb_prop in H; destruct H as [Hn Hf];
    apply spec_float_eqb_eq, Prim2SF_inj in Hf; apply Z.leb_le in Hn;
    eexists; (split; [rewrite Hf; reflexivity | exact Hn]).
Qed.

Lemma checked_bound_holds : checked_up_to checked_bound = true.
Proof. vm_compute. reflexivity. Qed.

Lemma percentage_nearest num den :
  0 <= num <= den -> 0 < den <= Z.of_nat checked_bound ->
  exists n, percentage num den = JFloat (hundredths n)
            /\ 2 * Z.abs (10000 * num - n * den) <= den.
Proof.
  intros Hn Hd. apply percentage_checked_sound.
  apply (checked_up_to_sound checked_bound); auto using checked_bound_holds.
Qed.

(** With one more record in the denominator the nearest two-decimal number
    does not grow. *)
Lemma nearest_monotone p t n n' :
  0 <= p -> 0 < t ->
  2 * Z.abs (10000 * p - n * t) <= t ->
  2 * Z.abs (10000 * p - n' * (t + 1)) <= t + 1 ->
  n' <= n.
Proof.
  intros Hp Ht H1 H2.
  destruct (Z_le_gt_dec n' n) as [|Hgt]; [assumption|exfalso].
  assert (Hn : 0 <= n) by nia.
  assert (n' * (t + 1) >= (n + 1) * (t + 1)) by nia.
  lia.
Qed.



(* ================================================================= *)
(** ** Running a view *)

(** Unfolds the plumbing of the monad, and nothing else. *)
Ltac mrun :=
  repeat progress
    (cbv beta iota zeta delta
       [bind ret raise lift try_except get_store put_store now User_query_get
        Attendance_query_get load_user session_add session_dirty rollback internal_error
        assign parse_check_out];
     cbn [store session utcnow ticks users attendance
          ub_username ub_email ub_password ub_role
          mb_user_id mb_status mb_notes
          ab_status ab_notes ab_check_out_time]).

(* ================================================================= *)
(** ** Analytics *)

Lemma other_status_leave a : Attendance.status a = "leave" -> other_status a = true.
Proof. unfold other_status, has_status. intros ->. reflexivity. Qed.


Lemma count_snoc {A} (p : A -> bool) (l : list A) (x : A) :
  count p (l ++ [x]) = count p l + (if p x then 1 else 0).
Proof. rewrite count_app, count_cons, count_nil. lia. Qed.

Lemma other_status_not s a :
  In s ["present"; "absent"; "late"] -> other_status a = true -> has_status s a = false.
Proof.
  unfold other_status. intros Hs H.
  apply andb_prop in H. destruct H as [H Hl].
  apply andb_prop in H. destruct H as [Hp Ha].
  apply negb_true_iff in Hp, Ha, Hl.
  simpl in Hs. destruct Hs as [<-|[<-|[<-|[]]]]; assumption.
Qed.

(** C10. In the analytics of a known user, present + absent + late is at most
    total_records: the three counts tally disjoint parts of the user's
    records, the remaining part being the records of any other status.  One
    more record of another status raises total_records, the denominator of
    attendance_percentage, by one and leaves the three counts as they
    were; up to [checked_bound] records the percentage, in hundredths, does
    not grow by it. *)
Theorem user_analytics_partition (str : exn -> string) (w : world) (user_id : Z)
    (u : User.t) :
  get_user_in (store w) user_id = Some u ->
  exists j total present absent late,
    get_user_analytics str user_id w = (Return (j, 200), w)
    /\ field "total_records" j = Some (JInt total)
    /\ field "present" j = Some (JInt present)
    /\ field "absent" j = Some (JInt absent)
    /\ field "late" j = Some (JInt late)
    /\ field "attendance_percentage" j = Some (percentage present total)
    /\ 0 <= present /\ 0 <= absent /\ 0 <= late
    /\ present + absent + late <= total
    /\ total = present + absent + late
               + count (fun a => of_user user_id a && other_status a)%bool
                       (attendance (store w))
    /\ forall a w',
        Attendance.user_id a = user_id ->
        other_status a = true ->
        store w' = mkdb (users (store w)) (attendance (store w) ++ [a]) ->
        exists j',
          get_user_analytics str user_id w' = (Return (j', 200), w')
          /\ field "total_records" j' = Some (JInt (total + 1))
          /\ field "present" j' = Some (JInt present)
          /\ field "absent" j' = Some (JInt absent)
          /\ field "late" j' = Some (JInt late)
          /\ field "attendance_percentage" j' = Some (percentage present (total + 1))
          /\ (0 < total -> total + 1 <= Z.of_nat checked_bound ->
              exists n n',
                percentage present total = JFloat (hundredths n)
                /\ percentage present (total + 1) = JFloat (hundredths n')
                /\ n' <= n).
Proof.
  intros Hu. set (l := attendance (store w)).
  unfold get_user_analytics. mrun. rewrite Hu. mrun.
  do 5 eexists. split; [reflexivity|].
  cbn [field assoc String.eqb Ascii.eqb Bool.eqb]. fold l.
  do 5 (split; [reflexivity|]).
  pose proof (count_nonneg (fun a => of_user user_id a && has_status "present" a)%bool l).
  pose proof (count_nonneg (fun a => of_user user_id a && has_status "absent" a)%bool l).
  pose proof (count_nonneg (fun a => of_user user_id a && has_status "late" a)%bool l).
  pose proof (count_nonneg (fun a => of_user user_id a && other_status a)%bool l).
  pose proof (count_by_status (of_user user_id) l) as Hsplit.
  do 3 (split; [assumption|]).
  split; [lia|]. split; [exact Hsplit|].
  intros a w' Ha Ho Hw'.
  assert (Hu' : get_user_in (store w') user_id = Some u).
  { rewrite Hw'. exact Hu. }
  rewrite Hu'. rewrite Hw'. cbn [attendance]. fold l.
  assert (Hmine : of_user user_id a = true).
  { unfold of_user. apply Z.eqb_eq. exact Ha. }
  eexists. split; [reflexivity|].
  cbn [field assoc String.eqb Ascii.eqb Bool.eqb].
  rewrite !count_snoc, Hmine. cbn [andb].
  rewrite !(other_status_not _ a) by (simpl; auto).
  rewrite !Z.add_0_r. do 5 (split; [reflexivity|]).
  intros Hpos Hbound.
  set (present := count (fun a => of_user user_id a && has_status "present" a)%bool l)
    in *.
  set (total := count (of_user user_id) l) in *.
  destruct (percentage_nearest present total) as [n [Hn Hnear]]; [lia|lia|].
  destruct (percentage_nearest present (total + 1)) as [n' [Hn' Hnear']]; [lia|lia|].
  exists n, n'. split; [exact Hn|]. split; [exact Hn'|].
  apply (nearest_monotone present total n n'); assumption || lia.
Qed.

(* ================================================================= *)
(** ** Queries and keys *)

Lemma first_filter_None {A} (p : A -> bool) (l : list A) :
  first (filter p l) = None <-> forall x, In x l -> p x = false.
Proof.
  induction l as [|a l IH]; simpl.
  - split; [intros _ x []|reflexivity].
  - destruct (p a) eqn:Hp; simpl.
    + split; [discriminate|]. intros H. rewrite (H a) in Hp by auto. discriminate.
    + rewrite IH. split.
      * intros H x [<-|Hx]; auto.
      * intros H x Hx. apply H. auto.
Qed.

Lemma first_filter_Some {A} (p : A -> bool) (l : list A) (x : A) :
  first (filter p l) = Some x -> In x l /\ p x = true.
Proof.
  intros H. apply filter_In. destruct (filter p l) as [|y l']; [discriminate|].
  injection H as <-. left. reflexivity.
Qed.

Lemma get_user_in_Some d id u :
  get_user_in d id = Some u -> In u (users d) /\ User.id u = id.
Proof.
  intros H. apply first_filter_Some in H. destruct H as [Hin H].
  split; [exact Hin|]. apply Z.eqb_eq. exact H.
Qed.

Lemma get_attendance_in_Some d id a :
  get_attendance_in d id = Some a -> In a (attendance d) /\ Attendance.id a = id.
Proof.
  intros H. apply first_filter_Some in H. destruct H as [Hin H].
  split; [exact Hin|]. apply Z.eqb_eq. exact H.
Qed.

Lemma next_id_above (ids : list Z) (id : Z) : In id ids -> id < next_id ids.
Proof.
  unfold next_id. induction ids as [|a ids IH]; simpl; [intros []|].
  intros [->|H]; [lia|]. specialize (IH H). lia.
Qed.

Lemma next_id_positive (ids : list Z) : 0 < next_id ids.
Proof.
  unfold next_id. induction ids as [|a ids IH]; simpl; lia.
Qed.

Lemma filter_none {A} (p : A -> bool) (l : list A) :
  (forall x, In x l -> p x = false) -> filter p l = [].
Proof.
  induction l as [|a l IH]; simpl; [reflexivity|]. intros H.
  rewrite (H a) by auto. apply IH. intros x Hx. apply H. auto.
Qed.

(** A freshly inserted user is the one found under its id. *)
Lemma get_user_in_new (l : list User.t) (att : list Attendance.t) (u : User.t) :
  User.id u = next_id (map User.id l) ->
  get_user_in (mkdb (l ++ [u]) att) (User.id u) = Some u.
Proof.
  intros Hid. unfold get_user_in. cbn [users].
  rewrite filter_app, filter_none.
  - simpl. rewrite Z.eqb_refl. reflexivity.
  - intros x Hx. apply Z.eqb_neq.
    pose proof (next_id_above (map User.id l) (User.id x) (in_map _ _ _ Hx)). lia.
Qed.

Lemma unique_ok_new (id : Z) (username email : string) (l : list User.t) :
  first (filter (fun u => String.eqb (User.username u) username) l) = None ->
  first (filter (fun u => String.eqb (User.email u) email) l) = None ->
  unique_ok id username email l = true.
Proof.
  rewrite !first_filter_None. intros Hn He.
  unfold unique_ok. apply forallb_forall. intros x Hx.
  rewrite (Hn x Hx), (He x Hx). apply orb_true_r.
Qed.

(* ================================================================= *)
(** ** Creating a user *)

(** [create_user], case by case. *)
Lemma create_user_cases str hash data w :
  session w = [] ->
  create_user str hash data w =
    match data with
    | Some (mk_user_json (Some username) (Some email) (Some password) role) =>
        match first (filter (fun u => String.eqb (User.username u) username)
                            (users (store w))) with
        | Some _ => (Return (error "Username already exists", 400), w)
        | None =>
            match first (filter (fun u => String.eqb (User.email u) email)
                                (users (store w))) with
            | Some _ => (Return (error "Email already exists", 400), w)
            | None =>
                let u := created_user hash w username email password role in
                (Return (JObj [ ("message", JStr "User created successfully");
                                ("user", User.to_dict u) ], 201),
                 mkworld (mkdb (users (store w) ++ [u]) (attendance (store w))) []
                         (utcnow w) (S (ticks w)))
            end
        end
    | _ => (Return (error "Missing required fields", 400), w)
    end.
Proof.
  intros Hs. destruct w as [d ss clk n]. cbn in Hs. subst ss.
  destruct data as [[[un|] [em|] [pw|] ro]|]; try reflexivity.
  unfold create_user. mrun. cbn [ub_username ub_email ub_password ub_role].
  destruct (first (filter _ (users d))) eqn:Hn; [reflexivity|].
  destruct (first (filter (fun u => String.eqb (User.email u) em) (users d))) eqn:He;
    [reflexivity|].
  unfold commit. cbn [session app flush exec]. mrun.
  rewrite (unique_ok_new _ _ _ _ Hn He). mrun. cbn [hd].
  unfold created_user. cbn [store users ticks utcnow].
  set (u := User.mk _ un em _ _ _).
  pose proof (get_user_in_new (users d) (attendance d) u eq_refl) as Hg.
  cbn [User.id u] in Hg. rewrite Hg. reflexivity.
Qed.

(** C3. [POST /api/users] answers 400 and writes nothing when the username
    or the email of the body is that of an existing user, and when username,
    email or password is missing; otherwise it answers 201 and the table has
    one more row, with the role "user" unless one was supplied. *)
Theorem create_user_spec (str : exn -> string) (hash : string -> string)
    (data : option user_json) (w : world) :
  session w = [] ->
  (forall b u,
      data = Some b -> In u (users (store w)) ->
      ub_username b = Some (User.username u) \/ ub_email b = Some (User.email u) ->
      exists msg, create_user str hash data w = (Return (error msg, 400), w))
  /\ (data = None
      \/ (exists b, data = Some b
                    /\ (ub_username b = None \/ ub_email b = None
                        \/ ub_password b = None)) ->
      create_user str hash data w = (Return (error "Missing required fields", 400), w))
  /\ (forall username email password role,
         data = Some (mk_user_json (Some username) (Some email) (Some password) role) ->
         (forall u, In u (users (store w)) ->
                    User.username u <> username /\ User.email u <> email) ->
         exists j w' (u : User.t),
           create_user str hash data w = (Return (j, 201), w')
           /\ users (store w') = (users (store w) ++ [u])%list
           /\ attendance (store w') = attendance (store w)
           /\ field "user" j = Some (User.to_dict u)
           /\ User.username u = username /\ User.email u = email
           /\ User.password u = hash password
           /\ User.role u = get_default role "user"
           /\ (role = None -> User.role u = "user")
           /\ forall v, In v (users (store w)) -> User.id v <> User.id u).
Proof.
  intros Hs. rewrite (create_user_cases str hash data w Hs).
  split; [|split].
  - intros b u -> Hin Hdup.
    destruct b as [[un|] [em|] [pw|] ro]; try (eexists; reflexivity).
    cbn [ub_username ub_email] in Hdup.
    destruct (first (filter _ (users (store w)))) eqn:Hn; [eexists; reflexivity|].
    destruct (first (filter (fun v => String.eqb (User.email v) em) (users (store w))))
      eqn:He; [eexists; reflexivity|].
    exfalso. rewrite first_filter_None in Hn, He.
    specialize (Hn u Hin). specialize (He u Hin). cbn beta in Hn, He.
    apply String.eqb_neq in Hn, He.
    destruct Hdup as [H|H]; injection H as H; congruence.
  - intros [->|[b [-> H]]]; [reflexivity|].
    destruct b as [[un|] [em|] [pw|] ro]; try reflexivity;
      cbn [ub_username ub_email ub_password] in H;
      destruct H as [H|[H|H]]; discriminate.
  - intros un em pw ro -> Hfresh.
    assert (Hn : first (filter (fun u => String.eqb (User.username u) un)
                               (users (store w))) = None).
    { apply first_filter_None. intros x Hx. apply String.eqb_neq, (Hfresh x Hx). }
    assert (He : first (filter (fun u => String.eqb (User.email u) em)
                               (users (store w))) = None).
    { apply first_filter_None. intros x Hx. apply String.eqb_neq, (Hfresh x Hx). }
    rewrite Hn, He. do 3 eexists. split; [reflexivity|].
    cbn [store users attendance field assoc String.eqb Ascii.eqb Bool.eqb].
    unfold created_user. cbn [User.username User.email User.password User.role User.id].
    repeat split; try reflexivity.
    + intros ->. reflexivity.
    + intros v Hv. cbn [User.id].
      pose proof (next_id_above (map User.id (users (store w))) (User.id v)
                                (in_map _ _ _ Hv)). lia.
Qed.

(* ================================================================= *)
(** ** The public representation of a user *)

Lemma digit_val_digit (n : Z) : digit_val (digit n) = Some (n mod 10).
Proof.
  unfold digit_val, digit.
  pose proof (Z.mod_pos_bound n 10 ltac:(lia)) as Hm.
  rewrite N_ascii_embedding by lia.
  rewrite Z2N.id by lia.
  destruct (Z.leb_spec 48 (48 + n mod 10)); [|lia].
  destruct (Z.leb_spec (48 + n mod 10) 57); [|lia].
  cbn [andb]. f_equal. lia.
Qed.

Lemma digits_val_pad2 (n : Z) :
  0 <= n < 100 ->
  digits_val 0 (String (digit (n / 10)) (String (digit n) "")) = Some n.
Proof.
  intros H. cbn [digits_val]. rewrite !digit_val_digit. f_equal.
  Z.to_euclidean_division_equations. lia.
Qed.

(** A year from 1000 on is written with four digits. *)
Lemma year_text_four (n : Z) (k : string) :
  1000 <= n ->
  year_text n k
  = String (digit (n / 1000)) (String (digit (n / 100)) (pad2 n k)).
Proof.
  intros H. unfold year_text.
  destruct (Z.ltb_spec n 10); [lia|].
  destruct (Z.ltb_spec n 100); [lia|].
  destruct (Z.ltb_spec n 1000); [lia|reflexivity].
Qed.

Lemma digits_val_year (n : Z) :
  0 <= n < 10000 ->
  digits_val 0 (String (digit (n / 1000)) (String (digit (n / 100))
                 (String (digit (n / 10)) (String (digit n) "")))) = Some n.
Proof.
  intros H. cbn [digits_val]. rewrite !digit_val_digit. f_equal.
  Z.to_euclidean_division_equations. lia.
Qed.

(** [strftime] writes nineteen characters in the shape
    [YYYY-MM-DD HH:MM:SS], from which the six fields are read back. *)
Lemma read_timestamp_strftime (t : datetime) :
  valid_datetime t ->
  read_timestamp (strftime t)
  = Some (year (dt_date t), month (dt_date t), day (dt_date t),
          hour t, minute t, second t).
Proof.
  intros [[Hy [Hm Hd]] [Hh [Hmi Hs]]].
  unfold read_timestamp, strftime, strftime_date.
  rewrite year_text_four by lia. unfold pad2.
  cbn [substring String.length Nat.eqb].
  rewrite digits_val_year by lia. rewrite !digits_val_pad2 by lia.
  reflexivity.
Qed.


(** The length of a date as [strftime] writes it: ten characters from the
    year 1000 on, fewer before. *)
Lemma strftime_date_length (d : date) (k : string) :
  (1000 <= year d ->
   String.length (strftime_date d k) = (10 + String.length k)%nat)
  /\ (year d < 1000 ->
      (String.length (strftime_date d k) < 10 + String.length k)%nat).
Proof.
  unfold strftime_date, year_text, pad2.
  destruct (Z.ltb_spec (year d) 10);
    [|destruct (Z.ltb_spec (year d) 100);
      [|destruct (Z.ltb_spec (year d) 1000)]];
    cbn [String.length]; split; intros; lia.
Qed.

Lemma strftime_length (t : datetime) :
  (1000 <= year (dt_date t) -> String.length (strftime t) = 19%nat)
  /\ (year (dt_date t) < 1000 -> (String.length (strftime t) < 19)%nat).
Proof.
  unfold strftime.
  destruct (strftime_date_length (dt_date t)
              (String " " (pad2 (hour t) (String ":" (pad2 (minute t)
                 (String ":" (pad2 (second t) EmptyString))))))) as [H1 H2].
  unfold pad2 in *. cbn [String.length] in *.
  split; intros H; [rewrite H1 by exact H; reflexivity|].
  specialize (H2 H). lia.
Qed.

Lemma get_users_run str w :
  get_users str w = (Return (JList (map User.to_dict (users (store w))), 200), w).
Proof. reflexivity. Qed.

Lemma get_user_run str id w :
  get_user str id w =
    match get_user_in (store w) id with
    | Some u => (Return (User.to_dict u, 200), w)
    | None => (Return (missing str id "User not found"), w)
    end.
Proof.
  unfold get_user, missing. mrun.
  destruct (get_user_in (store w) id); [reflexivity|].
  destruct (int64 id); reflexivity.
Qed.

(** C5. The list and the fetch of users return [to_dict] of the stored rows:
    exactly id, username, email, role and created_at, the latter written as
    [YYYY-MM-DD HH:MM:SS]; the password is no field of it and has no
    influence on it.  A user fetched right after its creation shows the
    username, the email and the role it was created with. *)
Theorem user_public_representation (str : exn -> string) (hash : string -> string)
    (w : world) :
  get_users str w = (Return (JList (map User.to_dict (users (store w))), 200), w)
  /\ (forall id u, get_user_in (store w) id = Some u ->
                   get_user str id w = (Return (User.to_dict u, 200), w))
  /\ (forall u,
         keys (User.to_dict u) = ["id"; "username"; "email"; "role"; "created_at"]
         /\ field "id" (User.to_dict u) = Some (JInt (User.id u))
         /\ field "username" (User.to_dict u) = Some (JStr (User.username u))
         /\ field "email" (User.to_dict u) = Some (JStr (User.email u))
         /\ field "role" (User.to_dict u) = Some (JStr (User.role u))
         /\ field "created_at" (User.to_dict u)
            = Some (JStr (strftime (User.created_at u)))
         /\ field "password" (User.to_dict u) = None
         /\ (forall p, User.to_dict (User.mk (User.id u) (User.username u) (User.email u)
                                             p (User.role u) (User.created_at u))
                       = User.to_dict u)
         /\ (valid_datetime (User.created_at u) ->
             String.length (strftime (User.created_at u)) = 19%nat
             /\ read_timestamp (strftime (User.created_at u))
                = Some (year (dt_date (User.created_at u)),
                        month (dt_date (User.created_at u)),
                        day (dt_date (User.created_at u)),
                        hour (User.created_at u), minute (User.created_at u),
                        second (User.created_at u))))
  /\ (forall data j w1,
         session w = [] ->
         create_user str hash data w = (Return (j, 201), w1) ->
         exists username email password role u,
           data = Some (mk_user_json (Some username) (Some email) (Some password) role)
           /\ field "user" j = Some (User.to_dict u)
           /\ get_user str (User.id u) w1 = (Return (User.to_dict u, 200), w1)
           /\ field "username" (User.to_dict u) = Some (JStr username)
           /\ field "email" (User.to_dict u) = Some (JStr email)
           /\ field "role" (User.to_dict u) = Some (JStr (get_default role "user"))).
Proof.
  split; [reflexivity|]. split; [|split].
  - intros id u Hu. rewrite get_user_run, Hu. reflexivity.
  - intros u. repeat split.
    + apply strftime_length.
      match goal with H : valid_datetime _ |- _ => destruct H as [[Hy _] _] end.
      lia.
    + apply read_timestamp_strftime. assumption.
  - intros data j w1 Hs Hrun.
    rewrite (create_user_cases str hash data w Hs) in Hrun.
    destruct data as [[[un|] [em|] [pw|] ro]|]; try discriminate.
    destruct (first (filter _ (users (store w)))); [discriminate|].
    destruct (first (filter _ (users (store w)))); [discriminate|].
    cbv zeta in Hrun. injection Hrun as <- <-.
    exists un, em, pw, ro, (created_user hash w un em pw ro).
    split; [reflexivity|]. split; [reflexivity|].
    split; [|repeat split].
    rewrite get_user_run. cbn [store].
    rewrite (get_user_in_new (users (store w)) (attendance (store w))
               (created_user hash w un em pw ro) eq_refl).
    reflexivity.
Qed.

(* ================================================================= *)
(** ** Lookups *)

Lemma get_user_in_live d k :
  (exists u, In u (users d) /\ User.id u = k) -> exists u, get_user_in d k = Some u.
Proof.
  intros [u [Hin Hid]]. unfold get_user_in.
  destruct (first (filter (fun v => User.id v =? k) (users d))) as [v|] eqn:E;
    [exists v; reflexivity|].
  rewrite first_filter_None in E. specialize (E u Hin). cbn beta in E.
  apply Z.eqb_neq in E. contradiction.
Qed.

Lemma date_eqb_eq (a b : date) : date_eqb a b = true <-> a = b.
Proof.
  unfold date_eqb. destruct a as [y m d], b as [y' m' d']. cbn [year month day].
  rewrite !andb_true_iff, !Z.eqb_eq. split.
  - intros [[-> ->] ->]. reflexivity.
  - intros H. injection H as -> -> ->. auto.
Qed.

(* ================================================================= *)
(** ** Listing attendance *)

Lemma to_dicts_live (d : db) (l : list Attendance.t) :
  fk_ok d -> incl l (attendance d) ->
  exists js, to_dicts d l = Return js /\ Forall2 (represents d) l js.
Proof.
  intros Hfk. induction l as [|a l IH]; intros Hincl.
  - exists []. split; [reflexivity|constructor].
  - destruct IH as [js [Hjs Hall]].
    { intros x Hx. apply Hincl. right. exact Hx. }
    destruct (get_user_in_live d (Attendance.user_id a)) as [u Hu].
    { apply Hfk, Hincl. left. reflexivity. }
    cbn [to_dicts]. rewrite Hu. cbn [Attendance.to_dict]. rewrite Hjs.
    eexists. split; [reflexivity|]. constructor; [|exact Hall].
    exists u. split; [exact Hu|]. split; [|reflexivity].
    apply (get_user_in_Some d _ u Hu).
Qed.

Lemma filter_filter {A} (p q : A -> bool) (l : list A) :
  filter q (filter p l) = filter (fun x => p x && q x)%bool l.
Proof.
  induction l as [|x l IH]; [reflexivity|]. simpl.
  destruct (p x); simpl; [destruct (q x)|]; rewrite IH; reflexivity.
Qed.

Lemma filter_true {A} (l : list A) : filter (fun _ => true) l = l.
Proof. induction l as [|x l IH]; simpl; [|rewrite IH]; reflexivity. Qed.

Lemma get_attendance_cases str strptime numeric date user_id w :
  get_attendance str strptime numeric date user_id w =
    match date_filter strptime date with
    | Raise e => (Return (error (str e), 500), w)
    | Return day =>
        match to_dicts (store w)
                       (filter (kept numeric day user_id) (attendance (store w))) with
        | Return js => (Return (JList js, 200), w)
        | Raise e => (Return (error (str e), 500), w)
        end
    end.
Proof.
  unfold get_attendance, date_filter, kept. mrun.
  destruct (given date) as [s|]; mrun.
  - destruct (strptime s) as [day|]; mrun; [|reflexivity].
    destruct (given user_id) as [s'|].
    + rewrite filter_filter. destruct (to_dicts _ _); reflexivity.
    + rewrite (filter_ext (fun a => (date_eqb (Attendance.date a) day && true)%bool)
                          (fun a => date_eqb (Attendance.date a) day))
        by (intros a; apply andb_true_r).
      destruct (to_dicts _ _); reflexivity.
  - destruct (given user_id) as [s'|].
    + cbn [andb]. destruct (to_dicts _ _); reflexivity.
    + cbn [andb]. rewrite filter_true. destruct (to_dicts _ _); reflexivity.
Qed.

(** C6. [GET /api/attendance] returns, in the order of the table, the public
    representations of exactly the records that pass the filters given: the
    records of that date, the records of that user, those that are both, or
    every record.  Each representation carries the username of the user that
    owns the record.  A date that does not parse is answered with 500. *)
Theorem get_attendance_filters (str : exn -> string) (strptime : string -> option date)
    (numeric : string -> option Z) (date user_id : option string) (w : world) :
  fk_ok (store w) ->
  (forall day, date_filter strptime date = Return day ->
     exists js,
       get_attendance str strptime numeric date user_id w = (Return (JList js, 200), w)
       /\ Forall2 (represents (store w))
                  (filter (kept numeric day user_id) (attendance (store w))) js
       /\ forall a,
           In a (filter (kept numeric day user_id) (attendance (store w)))
           <-> In a (attendance (store w))
               /\ (forall d, day = Some d -> Attendance.date a = d)
               /\ (forall s, given user_id = Some s ->
                             numeric s = Some (Attendance.user_id a)))
  /\ (given date = None -> date_filter strptime date = Return None)
  /\ (forall s day, given date = Some s -> strptime s = Some day ->
                    date_filter strptime date = Return (Some day))
  /\ (forall s, given date = Some s -> strptime s = None ->
                get_attendance str strptime numeric date user_id w
                = (Return (error (str ValueError), 500), w)).
Proof.
  intros Hfk. rewrite get_attendance_cases. split; [|split; [|split]].
  - intros day Hday. rewrite Hday.
    destruct (to_dicts_live (store w)
                (filter (kept numeric day user_id) (attendance (store w))) Hfk)
      as [js [Hjs Hall]].
    { intros x Hx. apply filter_In in Hx. apply Hx. }
    rewrite Hjs. exists js. split; [reflexivity|]. split; [exact Hall|].
    intros a. rewrite filter_In. unfold kept, user_id_is.
    rewrite andb_true_iff. split.
    + intros [Hin [Hd Hu]]. split; [exact Hin|]. split.
      * intros d ->. apply date_eqb_eq. exact Hd.
      * intros s Hs. rewrite Hs in Hu. destruct (numeric s) as [n|]; [|discriminate].
        apply Z.eqb_eq in Hu. congruence.
    + intros [Hin [Hd Hu]]. split; [exact Hin|]. split.
      * destruct day as [d|]; [|reflexivity]. apply date_eqb_eq. auto.
      * destruct (given user_id) as [s|]; [|reflexivity].
        rewrite (Hu s eq_refl). apply Z.eqb_refl.
  - unfold date_filter. intros ->. reflexivity.
  - unfold date_filter. intros s day -> ->. reflexivity.
  - unfold date_filter. intros s -> ->. reflexivity.
Qed.

(* ================================================================= *)
(** ** Deleting a user *)

Lemma delete_user_cases str user_id w :
  session w = [] ->
  delete_user str user_id w =
    match get_user_in (store w) user_id with
    | None => (Return (missing str user_id "User not found"), w)
    | Some _ =>
        (Return (message "User deleted successfully", 200),
         mkworld (mkdb (filter (fun v => negb (User.id v =? user_id))
                               (users (store w)))
                       (filter (fun a => negb (Attendance.user_id a =? user_id))
                               (attendance (store w))))
                 [] (utcnow w) (ticks w))
    end.
Proof.
  intros Hs. destruct w as [d ss clk n]. cbn in Hs. subst ss.
  unfold delete_user, missing. mrun.
  destruct (get_user_in d user_id) as [u|] eqn:Hu; mrun;
    [|destruct (int64 user_id); reflexivity].
  apply get_user_in_Some in Hu. destruct Hu as [_ Hid].
  unfold commit. cbn [session app flush exec]. mrun. rewrite Hid. reflexivity.
Qed.



(** C4 as it was stated fails: no user of the office has the id [2 ^ 63],
    and deleting it is answered with 500, not 404. *)
Lemma delete_user_beyond_range :
  get_user_in (store office) (2 ^ 63) = None
  /\ delete_user exn_name (2 ^ 63) office
     = (Return (error "OverflowError", 500), office).
Proof. split; reflexivity. Qed.

(* ================================================================= *)
(** ** Updating a user *)

Lemma update_user_cases str user_id data w :
  session w = [] ->
  update_user str user_id data w =
    match get_user_in (store w) user_id with
    | None => (Return (missing str user_id "User not found"), w)
    | Some u =>
        match data with
        | None => (Return (error (str TypeError), 500), w)
        | Some b =>
            let u' := updated_user b u in
            if user_supplied b then
              if unique_ok (User.id u) (User.username u') (User.email u')
                           (users (store w))
              then (Return (user_updated_message u', 200),
                    mkworld (mkdb (replace_user u' (users (store w)))
                                  (attendance (store w)))
                            [] (utcnow w) (ticks w))
              else (Return (error (str IntegrityError), 500), w)
            else (Return (user_updated_message u, 200), w)
        end
    end.
Proof.
  intros Hs. destruct w as [d ss clk n]. cbn in Hs. subst ss.
  unfold update_user, missing. mrun.
  destruct (get_user_in d user_id) as [u|]; mrun;
    [|destruct (int64 user_id); reflexivity].
  destruct data as [[[un|] [em|] pw [ro|]]|]; mrun; try reflexivity;
    unfold commit;
    repeat progress
      (cbn [touch same_object set_username set_email set_role User.id];
       rewrite ?Z.eqb_refl);
    cbn [session flush exec]; mrun;
    cbv [updated_user apply_field user_supplied is_some orb];
    cbn [ub_username ub_email ub_role set_username set_email set_role
         User.id User.username User.email];
    try reflexivity;
    destruct (unique_ok _ _ _ (users d)); reflexivity.
Qed.

Lemma unique_ok_iff (id : Z) (username email : string) (l : list User.t) :
  unique_ok id username email l = true
  <-> forall v, In v l -> User.id v <> id ->
                User.username v <> username /\ User.email v <> email.
Proof.
  unfold unique_ok. rewrite forallb_forall. split.
  - intros H v Hv Hne. specialize (H v Hv).
    apply orb_prop in H. destruct H as [H|H]; [apply Z.eqb_eq in H; contradiction|].
    apply andb_prop in H. destruct H as [Hn He].
    apply negb_true_iff in Hn, He. apply String.eqb_neq in Hn, He. auto.
  - intros H v Hv. destruct (Z.eqb_spec (User.id v) id) as [|Hne]; [reflexivity|].
    destruct (H v Hv Hne) as [Hn He].
    apply String.eqb_neq in Hn, He. rewrite Hn, He. reflexivity.
Qed.

Lemma NoDup_map_inj {A B} (f : A -> B) (l : list A) (a b : A) :
  NoDup (map f l) -> In a l -> In b l -> f a = f b -> a = b.
Proof.
  induction l as [|x l IH]; simpl; [intros _ []|].
  intros Hnd Ha Hb Hf. inversion Hnd as [|? ? Hnotin Hnd']; subst.
  destruct Ha as [->|Ha], Hb as [->|Hb]; auto.
  - exfalso. apply Hnotin. rewrite Hf. apply in_map. exact Hb.
  - exfalso. apply Hnotin. rewrite <- Hf. apply in_map. exact Ha.
Qed.

Lemma replace_user_self (u : User.t) (l : list User.t) :
  NoDup (map User.id l) -> In u l -> replace_user u l = l.
Proof.
  intros Hnd Hu. unfold replace_user. rewrite <- (map_id l) at 2.
  apply map_ext_in. intros v Hv.
  destruct (Z.eqb_spec (User.id v) (User.id u)) as [E|]; [|reflexivity].
  symmetry. apply (NoDup_map_inj User.id l v u Hnd Hv Hu E).
Qed.

Lemma updated_user_fields (b : user_json) (u : User.t) :
  User.id (updated_user b u) = User.id u
  /\ User.password (updated_user b u) = User.password u
  /\ User.created_at (updated_user b u) = User.created_at u
  /\ User.username (updated_user b u) = get_default (ub_username b) (User.username u)
  /\ User.email (updated_user b u) = get_default (ub_email b) (User.email u)
  /\ User.role (updated_user b u) = get_default (ub_role b) (User.role u).
Proof.
  destruct b as [[un|] [em|] pw [ro|]]; repeat split.
Qed.

Lemma user_not_supplied (b : user_json) (u : User.t) :
  user_supplied b = false -> updated_user b u = u.
Proof.
  destruct b as [[un|] [em|] pw [ro|]]; try discriminate. destruct u. reflexivity.
Qed.



(* ================================================================= *)
(** ** Marking attendance *)

Lemma mark_attendance_cases str data w :
  session w = [] ->
  mark_attendance str data w =
    match data with
    | None => (Return (error "user_id is required", 400), w)
    | Some b =>
        match mb_user_id b with
        | None => (Return (error "user_id is required", 400), w)
        | Some user_id =>
            match get_user_in (store w) user_id with
            | None => (Return (missing str user_id "User not found"), w)
            | Some _ =>
                match todays_first (store w) user_id (dt_date (utcnow w (ticks w))) with
                | Some existing =>
                    match Attendance.check_out_time existing with
                    | None => check_out_path w existing
                    | Some _ => check_in_path w user_id b
                    end
                | None => check_in_path w user_id b
                end
            end
        end
    end.
Proof.
  intros Hs. destruct w as [d ss clk n]. cbn in Hs. subst ss.
  destruct data as [[[uid|] st no]|]; try reflexivity.
  unfold mark_attendance, todays_first, check_in_path, check_out_path, checked_in,
    missing.
  mrun. destruct (get_user_in d uid) as [u|]; mrun;
    [|destruct (int64 uid); reflexivity].
  destruct (first (filter _ (attendance d))) as [e|]; mrun.
  - destruct (Attendance.check_out_time e); mrun;
      unfold commit; cbn [touch session app flush exec]; mrun; reflexivity.
  - unfold commit; cbn [session app flush exec]; mrun; reflexivity.
Qed.

(** C9. On the check-out path -- the first record of the user for today has
    no check-out time -- [POST /api/attendance] sets the check-out time of
    that record and nothing else: whatever status and notes the body carries,
    the id, user_id, date, check_in_time, status and notes of the record stay,
    and no record is added.  On the check-in path the new record takes the
    status and the notes of the body, "present" and the empty string when
    they are absent. *)
Theorem mark_attendance_check_out (str : exn -> string) (b : mark_json)
    (user_id : Z) (u : User.t) (w : world) :
  session w = [] ->
  mb_user_id b = Some user_id ->
  get_user_in (store w) user_id = Some u ->
  let existing := todays_first (store w) user_id (dt_date (utcnow w (ticks w))) in
  (forall e,
      existing = Some e -> Attendance.check_out_time e = None ->
      exists w' e',
        mark_attendance str (Some b) w
        = (Return (message "Check-out recorded successfully", 201), w')
        /\ attendance (store w')
           = map (fun a => if Attendance.id a =? Attendance.id e then e' else a)
                 (attendance (store w))
        /\ users (store w') = users (store w)
        /\ Attendance.check_out_time e' = Some (utcnow w (S (ticks w)))
        /\ Attendance.id e' = Attendance.id e
        /\ Attendance.user_id e' = Attendance.user_id e
        /\ Attendance.date e' = Attendance.date e
        /\ Attendance.check_in_time e' = Attendance.check_in_time e
        /\ Attendance.status e' = Attendance.status e
        /\ Attendance.notes e' = Attendance.notes e)
  /\ (existing = None
      \/ (exists e t, existing = Some e /\ Attendance.check_out_time e = Some t) ->
      exists w' r,
        mark_attendance str (Some b) w
        = (Return (message "Check-in recorded successfully", 201), w')
        /\ attendance (store w') = (attendance (store w) ++ [r])%list
        /\ users (store w') = users (store w)
        /\ Attendance.status r = get_default (mb_status b) "present"
        /\ Attendance.notes r = get_default (mb_notes b) ""
        /\ Attendance.user_id r = user_id
        /\ Attendance.check_out_time r = None).
Proof.
  intros Hs Hb Hu existing.
  rewrite (mark_attendance_cases str (Some b) w Hs), Hb, Hu. fold existing.
  split.
  - intros e -> He. rewrite He. unfold check_out_path.
    do 2 eexists. split; [reflexivity|]. cbn [store users attendance].
    split; [reflexivity|]. repeat split.
  - intros [->|[e [t [-> He]]]]; [|rewrite He]; unfold check_in_path;
      do 2 eexists; (split; [reflexivity|]); cbn [store users attendance];
      repeat split.
Qed.





(** C1 as it was stated fails: the user_id [2 ^ 63] resolves to no user of
    the office, and the answer is 500, not 404. *)
Lemma mark_attendance_beyond_range :
  get_user_in (store office) (2 ^ 63) = None
  /\ mark_attendance exn_name (Some (body_of (2 ^ 63))) office
     = (Return (error "OverflowError", 500), office).
Proof. split; reflexivity. Qed.

(* ================================================================= *)
(** ** Updating and deleting a record *)

Lemma update_attendance_cases str fromisoformat attendance_id data w :
  session w = [] ->
  update_attendance str fromisoformat attendance_id data w =
    match get_attendance_in (store w) attendance_id with
    | None => (Return (missing str attendance_id "Attendance record not found"), w)
    | Some r =>
        match data with
        | None => (Return (error (str TypeError), 500), w)
        | Some b =>
            match parsed_check_out fromisoformat b with
            | Raise e => (Return (error (str e), 500), w)
            | Return t =>
                let r' := updated_record b t r in
                let w' :=
                  if attendance_supplied b
                  then mkworld (mkdb (users (store w))
                                     (replace_attendance r' (attendance (store w))))
                               [] (utcnow w) (ticks w)
                  else w in
                match Attendance.to_dict
                        (get_user_in (store w) (Attendance.user_id r')) r' with
                | Return j =>
                    (Return (JObj [ ("message", JStr "Attendance updated successfully");
                                    ("record", j) ], 200), w')
                | Raise e => (Return (error (str e), 500), w')
                end
            end
        end
    end.
Proof.
  intros Hs. destruct w as [d ss clk n]. cbn in Hs. subst ss.
  unfold update_attendance, missing. mrun.
  destruct (get_attendance_in d attendance_id) as [r|]; mrun;
    [|destruct (int64 attendance_id); reflexivity].
  destruct data as [[[st|] [no|] [s|]]|]; mrun; try reflexivity;
    unfold parsed_check_out; cbn [ab_check_out_time];
    try (destruct (fromisoformat s) as [t|]; mrun; [|reflexivity]);
    unfold commit;
    repeat progress
      (cbn [touch same_object Attendance.set_status Attendance.set_notes
            Attendance.set_check_out_time Attendance.id];
       rewrite ?Z.eqb_refl);
    cbn [session flush exec]; mrun;
    cbv [updated_record apply_field attendance_supplied is_some orb];
    cbn [ab_status ab_notes ab_check_out_time Attendance.set_status
         Attendance.set_notes Attendance.set_check_out_time Attendance.user_id];
    destruct (get_user_in _ (Attendance.user_id r)); reflexivity.
Qed.

Lemma delete_attendance_cases str attendance_id w :
  session w = [] ->
  delete_attendance str attendance_id w =
    match get_attendance_in (store w) attendance_id with
    | None => (Return (missing str attendance_id "Attendance record not found"), w)
    | Some _ =>
        (Return (message "Attendance record deleted successfully", 200),
         mkworld (mkdb (users (store w))
                       (filter (fun b => negb (Attendance.id b =? attendance_id))
                               (attendance (store w))))
                 [] (utcnow w) (ticks w))
    end.
Proof.
  intros Hs. destruct w as [d ss clk n]. cbn in Hs. subst ss.
  unfold delete_attendance, missing. mrun.
  destruct (get_attendance_in d attendance_id) as [r|] eqn:Hr; mrun;
    [|destruct (int64 attendance_id); reflexivity].
  apply get_attendance_in_Some in Hr. destruct Hr as [_ Hid].
  unfold commit. cbn [session app flush exec]. mrun. rewrite Hid. reflexivity.
Qed.

(* ================================================================= *)
(** ** Failures *)

Lemma answered_ok w j status w' :
  session w' = [] -> status = 200 \/ status = 201 ->
  answered w (Return (j, status), w').
Proof.
  intros Hs H. exists j, status, w'. split; [reflexivity|]. split; [exact Hs|].
  destruct H; auto.
Qed.

Lemma answered_error w msg status :
  session w = [] -> status = 400 \/ status = 404 \/ status = 500 ->
  answered w (Return (error msg, status), w).
Proof.
  intros Hs H. exists (error msg), status, w. split; [reflexivity|].
  split; [exact Hs|]. right. right. split; [exact H|]. split; [reflexivity|].
  exists msg. reflexivity.
Qed.

Lemma answered_missing str w id what :
  session w = [] -> answered w (Return (missing str id what), w).
Proof.
  intros Hs. unfold missing.
  destruct (int64 id); apply answered_error; auto.
Qed.

Create HintDb views.

#[local] Hint Resolve answered_ok answered_error answered_missing : views.

(** The six views that write, one by one. *)
Lemma views_answered str hash fromisoformat w :
  session w = [] ->
  fk_ok (store w) ->
  (forall data, answered w (create_user str hash data w))
  /\ (forall id data, answered w (update_user str id data w))
  /\ (forall id, answered w (delete_user str id w))
  /\ (forall data, answered w (mark_attendance str data w))
  /\ (forall id data, answered w (update_attendance str fromisoformat id data w))
  /\ (forall id, answered w (delete_attendance str id w)).
Proof.
  intros Hs Hfk. repeat split.
  - intros data. rewrite (create_user_cases _ _ _ _ Hs).
    destruct data as [[[un|] [em|] [pw|] ro]|]; auto with views.
    destruct (first (filter _ (users (store w)))); auto with views.
    destruct (first (filter _ (users (store w)))); auto with views.
  - intros id data. rewrite (update_user_cases _ _ _ _ Hs).
    destruct (get_user_in (store w) id); auto with views.
    destruct data as [b|]; auto 6 with views. cbv zeta.
    destruct (user_supplied b); auto with views.
    destruct (unique_ok _ _ _ _); auto 6 with views.
  - intros id. rewrite (delete_user_cases _ _ _ Hs).
    destruct (get_user_in (store w) id); auto with views.
  - intros data. rewrite (mark_attendance_cases _ _ _ Hs).
    destruct data as [b|]; auto with views.
    destruct (mb_user_id b) as [uid|]; auto with views.
    destruct (get_user_in (store w) uid); auto with views.
    unfold check_in_path, check_out_path.
    destruct (todays_first _ _ _) as [e|]; auto with views.
    destruct (Attendance.check_out_time e); auto with views.
  - intros id data. rewrite (update_attendance_cases _ _ _ _ _ Hs).
    destruct (get_attendance_in (store w) id) as [r|] eqn:Hr; auto with views.
    destruct data as [b|]; auto 6 with views.
    destruct (parsed_check_out fromisoformat b) as [t|]; auto 6 with views.
    cbv zeta.
    assert (Hu : exists u, get_user_in (store w)
                             (Attendance.user_id (updated_record b t r)) = Some u).
    { apply get_user_in_live.
      replace (Attendance.user_id (updated_record b t r)) with (Attendance.user_id r).
      - apply Hfk. apply (get_attendance_in_Some _ _ _ Hr).
      - destruct b as [[st|] [no|] co], t; reflexivity. }
    destruct Hu as [u ->]. cbn [Attendance.to_dict].
    destruct (attendance_supplied b); auto with views.
  - intros id. rewrite (delete_attendance_cases _ _ _ Hs).
    destruct (get_attendance_in (store w) id); auto with views.
Qed.

(** C8. Every mutating view, run on a store whose records reference live
    users, returns a response -- no exception leaves the view -- and leaves
    the session empty.  The status is 200, 201, 400, 404 or 500; in the last
    three cases the body is [{"error": message}] and the committed tables are
    those from before the request.  In particular a check_out_time that
    [fromisoformat] refuses is answered with 500 and nothing is written, not
    even the status and the notes assigned before it. *)
Theorem failures_roll_back (str : exn -> string) (hash : string -> string)
    (fromisoformat : string -> option datetime) (w : world) :
  session w = [] ->
  fk_ok (store w) ->
  (forall data, answered w (create_user str hash data w))
  /\ (forall id data, answered w (update_user str id data w))
  /\ (forall id, answered w (delete_user str id w))
  /\ (forall data, answered w (mark_attendance str data w))
  /\ (forall id data, answered w (update_attendance str fromisoformat id data w))
  /\ (forall id, answered w (delete_attendance str id w))
  /\ (forall id r b s,
         get_attendance_in (store w) id = Some r ->
         ab_check_out_time b = Some s -> fromisoformat s = None ->
         update_attendance str fromisoformat id (Some b) w
         = (Return (error (str ValueError), 500), w)).
Proof.
  intros Hs Hfk.
  destruct (views_answered str hash fromisoformat w Hs Hfk)
    as [A1 [A2 [A3 [A4 [A5 A6]]]]].
  repeat (split; [assumption|]).
  intros id r b s Hr Hb Hparse.
  rewrite (update_attendance_cases _ _ _ _ _ Hs), Hr.
  unfold parsed_check_out. rewrite Hb, Hparse. reflexivity.
Qed.

(* ================================================================= *)
(** ** The invariant of the attendance table *)

Lemma replace_user_In (u' v : User.t) (l : list User.t) :
  In v l -> exists v', In v' (replace_user u' l)
                       /\ (v' = v \/ (v' = u' /\ User.id v = User.id u')).
Proof.
  intros Hv. unfold replace_user.
  exists (if User.id v =? User.id u' then u' else v). split.
  - apply (in_map (fun v => if User.id v =? User.id u' then u' else v)). exact Hv.
  - destruct (Z.eqb_spec (User.id v) (User.id u')); auto.
Qed.

Lemma replace_attendance_In (r' a : Attendance.t) (l : list Attendance.t) :
  In a (replace_attendance r' l) ->
  In a l \/ (a = r' /\ exists b, In b l /\ Attendance.id b = Attendance.id r').
Proof.
  unfold replace_attendance. rewrite in_map_iff. intros [b [Hb Hin]].
  destruct (Z.eqb_spec (Attendance.id b) (Attendance.id r')) as [E|]; subst.
  - right. split; [reflexivity|]. exists b. auto.
  - left. exact Hin.
Qed.

(** Every mutating view keeps the attendance table referencing live
    users. *)
Lemma views_preserve_fk str hash fromisoformat w :
  session w = [] -> fk_ok (store w) ->
  (forall data, fk_ok (store (snd (create_user str hash data w))))
  /\ (forall id data, fk_ok (store (snd (update_user str id data w))))
  /\ (forall id, fk_ok (store (snd (delete_user str id w))))
  /\ (forall data, fk_ok (store (snd (mark_attendance str data w))))
  /\ (forall id data, fk_ok (store (snd (update_attendance str fromisoformat id data w))))
  /\ (forall id, fk_ok (store (snd (delete_attendance str id w)))).
Proof.
  intros Hs Hfk. repeat split.
  - intros data. rewrite (create_user_cases _ _ _ _ Hs).
    destruct data as [[[un|] [em|] [pw|] ro]|]; try exact Hfk.
    destruct (first (filter _ (users (store w)))); [exact Hfk|].
    destruct (first (filter _ (users (store w)))); [exact Hfk|].
    cbn [snd store]. intros a Ha. cbn [attendance users] in *.
    destruct (Hfk a Ha) as [u [Hu Hid]]. exists u. split; [|exact Hid].
    apply in_or_app. left. exact Hu.
  - intros id data. rewrite (update_user_cases _ _ _ _ Hs).
    destruct (get_user_in (store w) id) as [u|] eqn:Hu; [|exact Hfk].
    destruct data as [b|]; [|exact Hfk]. cbv zeta.
    destruct (user_supplied b); [|exact Hfk].
    destruct (unique_ok _ _ _ _); [|exact Hfk].
    cbn [snd store]. intros a Ha. cbn [attendance users] in *.
    destruct (Hfk a Ha) as [v [Hv Hid]].
    destruct (replace_user_In (updated_user b u) v _ Hv) as [v' [Hv' [->|[-> E]]]].
    + exists v. auto.
    + exists (updated_user b u). split; [exact Hv'|]. congruence.
  - intros id. rewrite (delete_user_cases _ _ _ Hs).
    destruct (get_user_in (store w) id); [|exact Hfk].
    cbn [snd store]. intros a Ha. cbn [attendance users] in *.
    apply filter_In in Ha. destruct Ha as [Ha Hne].
    apply negb_true_iff, Z.eqb_neq in Hne.
    destruct (Hfk a Ha) as [v [Hv Hid]]. exists v. split; [|exact Hid].
    apply filter_In. split; [exact Hv|]. apply negb_true_iff, Z.eqb_neq. congruence.
  - intros data. rewrite (mark_attendance_cases _ _ _ Hs).
    destruct data as [b|]; [|exact Hfk].
    destruct (mb_user_id b) as [uid|]; [|exact Hfk].
    destruct (get_user_in (store w) uid) as [u|] eqn:Hu; [|exact Hfk].
    apply get_user_in_Some in Hu.
    assert (Hin : fk_ok (store (snd (check_in_path w uid b)))).
    { cbn [snd store check_in_path]. intros a Ha. cbn [attendance users] in *.
      apply in_app_or in Ha. destruct Ha as [Ha|[<-|[]]]; [exact (Hfk a Ha)|].
      exists u. exact Hu. }
    destruct (todays_first _ _ _) as [e|] eqn:He; [|exact Hin].
    destruct (Attendance.check_out_time e); [exact Hin|].
    cbn [snd store check_out_path]. intros a Ha. cbn [attendance users] in *.
    apply replace_attendance_In in Ha. destruct Ha as [Ha|[-> _]]; [exact (Hfk a Ha)|].
    apply first_filter_Some in He. exact (Hfk e (proj1 He)).
  - intros id data. rewrite (update_attendance_cases _ _ _ _ _ Hs).
    destruct (get_attendance_in (store w) id) as [r|] eqn:Hr; [|exact Hfk].
    destruct data as [b|]; [|exact Hfk].
    destruct (parsed_check_out fromisoformat b) as [t|]; [|exact Hfk]. cbv zeta.
    assert (Hw : fk_ok (store (if attendance_supplied b
                               then mkworld (mkdb (users (store w))
                                                  (replace_attendance (updated_record b t r)
                                                     (attendance (store w))))
                                            [] (utcnow w) (ticks w)
                               else w))).
    { destruct (attendance_supplied b); [|exact Hfk].
      cbn [store]. intros a Ha. cbn [attendance users] in *.
      apply replace_attendance_In in Ha. destruct Ha as [Ha|[-> _]]; [exact (Hfk a Ha)|].
      replace (Attendance.user_id (updated_record b t r)) with (Attendance.user_id r)
        by (destruct b as [[st|] [no|] co], t; reflexivity).
      exact (Hfk r (proj1 (get_attendance_in_Some _ _ _ Hr))). }
    destruct (Attendance.to_dict _ _); exact Hw.
  - intros id. rewrite (delete_attendance_cases _ _ _ Hs).
    destruct (get_attendance_in (store w) id); [|exact Hfk].
    cbn [snd store]. intros a Ha. cbn [attendance users] in *.
    apply filter_In in Ha. exact (Hfk a (proj1 Ha)).
Qed.

(* ================================================================= *)
(** ** The invariant of the keys *)

Lemma NoDup_snoc {A} (l : list A) (x : A) : NoDup l -> ~ In x l -> NoDup (l ++ [x]).
Proof.
  intros Hl Hx. apply NoDup_app; [exact Hl|repeat constructor; intros []|].
  intros a Ha [<-|[]]. contradiction.
Qed.

Lemma NoDup_map_filter {A B} (key : A -> B) (keep : A -> bool) (rows : list A) :
  NoDup (map key rows) -> NoDup (map key (filter keep rows)).
Proof.
  induction rows as [|a rows IH]; simpl; [auto|]. intros H.
  inversion H as [|? ? Hnotin Hnd]; subst.
  destruct (keep a); [|auto]. simpl. constructor; [|auto].
  intros Hin. apply Hnotin. apply in_map_iff in Hin. destruct Hin as [x [Hx Hin]].
  apply filter_In in Hin. rewrite <- Hx. apply in_map. apply Hin.
Qed.

Lemma next_id_fresh (ids : list Z) : ~ In (next_id ids) ids.
Proof. intros H. apply next_id_above in H. lia. Qed.

Lemma map_id_replace_user (u' : User.t) (l : list User.t) :
  map User.id (replace_user u' l) = map User.id l.
Proof.
  unfold replace_user. rewrite map_map. apply map_ext. intros v.
  destruct (Z.eqb_spec (User.id v) (User.id u')); congruence.
Qed.

Lemma map_id_replace_attendance (r' : Attendance.t) (l : list Attendance.t) :
  map Attendance.id (replace_attendance r' l) = map Attendance.id l.
Proof.
  unfold replace_attendance. rewrite map_map. apply map_ext. intros v.
  destruct (Z.eqb_spec (Attendance.id v) (Attendance.id r')); congruence.
Qed.

Lemma replace_user_absent (u' : User.t) (l : list User.t) :
  ~ In (User.id u') (map User.id l) -> replace_user u' l = l.
Proof.
  intros H. unfold replace_user. rewrite <- (map_id l) at 2.
  apply map_ext_in. intros v Hv.
  destruct (Z.eqb_spec (User.id v) (User.id u')) as [E|]; [|reflexivity].
  exfalso. apply H. rewrite <- E. apply in_map. exact Hv.
Qed.

Lemma NoDup_map_replace_user {B} (f : User.t -> B) (u' : User.t) (l : list User.t) :
  NoDup (map User.id l) -> NoDup (map f l) ->
  (forall v, In v l -> User.id v <> User.id u' -> f v <> f u') ->
  NoDup (map f (replace_user u' l)).
Proof.
  induction l as [|x l IH]; simpl; [auto|]. intros Hid Hf Hfree.
  inversion Hid as [|? ? Hxid Hid']; subst.
  inversion Hf as [|? ? Hxf Hf']; subst.
  destruct (Z.eqb_spec (User.id x) (User.id u')) as [E|Hne].
  - rewrite E in Hxid. fold (replace_user u' l).
    rewrite (replace_user_absent u' l Hxid). constructor; [|exact Hf'].
    intros Hin. apply in_map_iff in Hin. destruct Hin as [v [Hv Hin]].
    apply (Hfree v); auto. intros E'. apply Hxid. rewrite <- E'. apply in_map. exact Hin.
  - constructor; [|apply IH; auto].
    fold (replace_user u' l). intros Hin. apply in_map_iff in Hin.
    destruct Hin as [v [Hv Hin]]. unfold replace_user in Hin.
    apply in_map_iff in Hin. destruct Hin as [y [Hy Hin]].
    destruct (Z.eqb_spec (User.id y) (User.id u')); subst.
    + apply (Hfree x); auto.
    + apply Hxf. rewrite <- Hv. apply in_map. exact Hin.
Qed.

Lemma not_in_map_of_first {B} (f : User.t -> B) (eqb : B -> B -> bool) (x : B)
    (l : list User.t) :
  (forall a b, eqb a b = true <-> a = b) ->
  first (filter (fun u => eqb (f u) x) l) = None -> ~ In x (map f l).
Proof.
  intros Heq H Hin. rewrite first_filter_None in H.
  apply in_map_iff in Hin. destruct Hin as [v [Hv Hin]].
  specialize (H v Hin). cbn beta in H. rewrite Hv in H.
  rewrite (proj2 (Heq x x) eq_refl) in H. discriminate.
Qed.

(** Every mutating view keeps the primary keys and the unique columns
    free of duplicates. *)
Lemma views_preserve_keys str hash fromisoformat w :
  session w = [] -> keys_ok (store w) ->
  (forall data, keys_ok (store (snd (create_user str hash data w))))
  /\ (forall id data, keys_ok (store (snd (update_user str id data w))))
  /\ (forall id, keys_ok (store (snd (delete_user str id w))))
  /\ (forall data, keys_ok (store (snd (mark_attendance str data w))))
  /\ (forall id data, keys_ok (store (snd (update_attendance str fromisoformat id data w))))
  /\ (forall id, keys_ok (store (snd (delete_attendance str id w)))).
Proof.
  intros Hs Hk. pose proof Hk as [Huid [Haid [Hun Hem]]]. split; [|split; [|split; [|split; [|split]]]].
  - intros data. rewrite (create_user_cases _ _ _ _ Hs).
    destruct data as [[[un|] [em|] [pw|] ro]|]; try exact Hk.
    destruct (first (filter _ (users (store w)))) eqn:Hn; [exact Hk|].
    destruct (first (filter (fun u => String.eqb (User.email u) em) (users (store w))))
      eqn:He; [exact Hk|].
    cbn [snd store]. unfold keys_ok. cbn [users attendance].
    rewrite !map_app. cbn [map created_user User.id User.username User.email].
    split; [apply NoDup_snoc; [exact Huid|apply next_id_fresh]|].
    split; [exact Haid|]. split; apply NoDup_snoc; auto.
    + apply (not_in_map_of_first User.username String.eqb un _ String.eqb_eq Hn).
    + apply (not_in_map_of_first User.email String.eqb em _ String.eqb_eq He).
  - intros id data. rewrite (update_user_cases _ _ _ _ Hs).
    destruct (get_user_in (store w) id) as [u|] eqn:Hu; [|exact Hk].
    destruct data as [b|]; [|exact Hk]. cbv zeta.
    destruct (user_supplied b); [|exact Hk].
    destruct (unique_ok _ _ _ _) eqn:Hok; [|exact Hk].
    rewrite unique_ok_iff in Hok.
    pose proof (updated_user_fields b u) as [Fid _].
    cbn [snd store]. unfold keys_ok. cbn [users attendance].
    rewrite map_id_replace_user.
    split; [exact Huid|]. split; [exact Haid|].
    split; apply NoDup_map_replace_user; auto; intros v Hv Hne;
      rewrite Fid in Hne; apply (Hok v Hv Hne).
  - intros id. rewrite (delete_user_cases _ _ _ Hs).
    destruct (get_user_in (store w) id); [|exact Hk].
    cbn [snd store]. unfold keys_ok. cbn [users attendance].
    repeat split; apply NoDup_map_filter; assumption.
  - intros data. rewrite (mark_attendance_cases _ _ _ Hs).
    destruct data as [b|]; [|exact Hk].
    destruct (mb_user_id b) as [uid|]; [|exact Hk].
    destruct (get_user_in (store w) uid) as [u|]; [|exact Hk].
    assert (Hin : keys_ok (store (snd (check_in_path w uid b)))).
    { cbn [snd store check_in_path]. unfold keys_ok. cbn [users attendance].
      rewrite map_app. cbn [map checked_in Attendance.id].
      repeat split; auto. apply NoDup_snoc; [exact Haid|apply next_id_fresh]. }
    destruct (todays_first _ _ _) as [e|]; [|exact Hin].
    destruct (Attendance.check_out_time e); [exact Hin|].
    cbn [snd store check_out_path]. unfold keys_ok. cbn [users attendance].
    rewrite map_id_replace_attendance. repeat split; assumption.
  - intros id data. rewrite (update_attendance_cases _ _ _ _ _ Hs).
    destruct (get_attendance_in (store w) id) as [r|]; [|exact Hk].
    destruct data as [b|]; [|exact Hk].
    destruct (parsed_check_out fromisoformat b) as [t|]; [|exact Hk]. cbv zeta.
    assert (Hw : keys_ok (store (if attendance_supplied b
                                 then mkworld (mkdb (users (store w))
                                                    (replace_attendance
                                                       (updated_record b t r)
                                                       (attendance (store w))))
                                              [] (utcnow w) (ticks w)
                                 else w))).
    { destruct (attendance_supplied b); [|exact Hk].
      cbn [store]. unfold keys_ok. cbn [users attendance].
      rewrite map_id_replace_attendance. repeat split; assumption. }
    destruct (Attendance.to_dict _ _); exact Hw.
  - intros id. rewrite (delete_attendance_cases _ _ _ Hs).
    destruct (get_attendance_in (store w) id); [|exact Hk].
    cbn [snd store]. unfold keys_ok. cbn [users attendance].
    repeat split; try assumption. apply NoDup_map_filter. assumption.
Qed.

(* ================================================================= *)
(** ** Reachable stores *)

(** X15. In every world that the six writing views reach from the empty
    tables, under any clock and any requests, the session is empty between
    two requests, primary keys and the unique columns have no duplicates, and
    every attendance record references a live user. *)
Lemma reachable_wf str hash fromisoformat w :
  reachable str hash fromisoformat w ->
  session w = [] /\ keys_ok (store w) /\ fk_ok (store w).
Proof.
  induction 1 as [clock n|w r Hr [Hs [Hk Hfk]]].
  - split; [reflexivity|]. split.
    + unfold keys_ok. cbn. repeat split; constructor.
    + intros a [].
  - pose proof (views_answered str hash fromisoformat w Hs Hfk)
      as [A1 [A2 [A3 [A4 [A5 A6]]]]].
    pose proof (views_preserve_keys str hash fromisoformat w Hs Hk)
      as [K1 [K2 [K3 [K4 [K5 K6]]]]].
    pose proof (views_preserve_fk str hash fromisoformat w Hs Hfk)
      as [F1 [F2 [F3 [F4 [F5 F6]]]]].
    assert (Hsess : forall res, answered w res -> session (snd res) = []).
    { intros res [j [status [w' [-> [Hw' _]]]]]. exact Hw'. }
    destruct r; cbn [serve]; (split; [apply Hsess|split]); auto.
Qed.

(* ================================================================= *)
(** ** Concrete runs *)

Lemma fk_ok_roster : fk_ok (store roster).
Proof.
  intros a Ha. cbn in Ha.
  destruct Ha as [<-|[<-|[<-|[<-|[<-|[]]]]]];
    [exists alice|exists alice|exists bob|exists alice|exists bob];
    (split; [cbn; auto|reflexivity]).
Defined.

Lemma keys_ok_office : keys_ok (store office).
Proof.
  unfold keys_ok. cbn.
  repeat split; repeat constructor; cbn; intuition discriminate.
Defined.



Lemma create_user_spec_witness :
  exists j w' u,
    create_user exn_name tagged
      (Some (mk_user_json (Some "carol") (Some "c@x.com") (Some "r") None)) office
    = (Return (j, 201), w')
    /\ users (store w') = [alice; bob; u]
    /\ User.role u = "user".
Proof.
  destruct (create_user_spec exn_name tagged
              (Some (mk_user_json (Some "carol") (Some "c@x.com") (Some "r") None))
              office eq_refl) as [_ [_ H]].
  destruct (H "carol" "c@x.com" "r" None eq_refl) as (j & w' & u & Hrun & Hu & _ & _ & _ & _ & _ & Hr & _).
  - intros v [<-|[<-|[]]]; split; discriminate.
  - exists j, w', u. repeat split; assumption.
Defined.


Lemma valid_noon : valid_datetime noon.
Proof. unfold valid_datetime, valid_date. cbn. lia. Defined.

Lemma user_public_representation_witness :
  get_user exn_name 1 office = (Return (User.to_dict alice, 200), office)
  /\ read_timestamp (strftime noon) = Some (2024, 5, 17, 12, 0, 0)
  /\ field "created_at" (User.to_dict alice) = Some (JStr "2024-05-17 12:00:00").
Proof.
  destruct (user_public_representation exn_name tagged office)
    as [_ [Hget [Hrep _]]].
  split; [exact (Hget 1 alice eq_refl)|].
  destruct (Hrep alice) as (_ & _ & _ & _ & _ & Hc & _ & _ & Hfmt).
  split; [exact (proj2 (Hfmt valid_noon))|exact Hc].
Defined.

Lemma get_attendance_filters_witness :
  exists js,
    get_attendance exn_name iso_date decimal (Some "2024-05-17") (Some "1") roster
    = (Return (JList js, 200), roster)
    /\ Forall2 (represents (store roster)) [open_record] js.
Proof.
  destruct (get_attendance_filters exn_name iso_date decimal
              (Some "2024-05-17") (Some "1") roster fk_ok_roster) as [H _].
  destruct (H (Some today) eq_refl) as [js [Hrun [Hall _]]].
  exists js. split; [exact Hrun|exact Hall].
Defined.


Lemma failures_roll_back_witness :
  update_attendance exn_name iso_datetime 1
    (Some (mk_attendance_json (Some "late") (Some "overslept") (Some "yesterday")))
    roster
  = (Return (error "ValueError", 500), roster)
  /\ answered roster (delete_user exn_name 7 roster).
Proof.
  destruct (failures_roll_back exn_name tagged iso_datetime roster eq_refl fk_ok_roster)
    as [_ [_ [Hdel [_ [_ [_ Hbad]]]]]].
  split; [|exact (Hdel 7)].
  exact (Hbad 1 open_record
              (mk_attendance_json (Some "late") (Some "overslept") (Some "yesterday"))
              "yesterday" eq_refl eq_refl eq_refl).
Defined.

Lemma mark_attendance_check_out_witness :
  exists w' e',
    mark_attendance exn_name
      (Some (mk_mark_json (Some 1) (Some "late") (Some "traffic"))) roster
    = (Return (message "Check-out recorded successfully", 201), w')
    /\ get_attendance_in (store w') 1 = Some e'
    /\ Attendance.status e' = "present" /\ Attendance.notes e' = ""
    /\ Attendance.check_out_time e' = Some noon.
Proof.
  destruct (mark_attendance_check_out exn_name
              (mk_mark_json (Some 1) (Some "late") (Some "traffic")) 1 alice roster
              eq_refl eq_refl eq_refl) as [H _].
  destruct (H open_record eq_refl eq_refl)
    as (w' & e' & Hrun & Hatt & _ & Hout & Hid & _ & _ & _ & Hst & Hno).
  exists w', e'. split; [exact Hrun|]. split; [|repeat split; assumption].
  unfold get_attendance_in. rewrite Hatt. cbn. rewrite Hid. reflexivity.
Defined.

Lemma user_analytics_partition_witness :
  exists j,
    get_user_analytics exn_name 1 roster = (Return (j, 200), roster)
    /\ field "total_records" j = Some (JInt 3)
    /\ field "present" j = Some (JInt 1)
    /\ field "absent" j = Some (JInt 1)
    /\ field "late" j = Some (JInt 0).
Proof.
  destruct (user_analytics_partition exn_name roster 1 alice eq_refl)
    as (j & total & present & absent & late & Hrun & Ht & Hp & Ha & Hl & _).
  exists j. split; [exact Hrun|].
  vm_compute in Hrun. injection Hrun as <-.
  repeat split; reflexivity.
Defined.

(** What the toggle does on a fourth call: the first record of the day is
    closed, so a third record is opened while the second one stays open. *)
Example mark_attendance_four_calls :
  let step w := snd (mark_attendance exn_name (Some (body_of 1)) w) in
  map Attendance.check_out_time
      (attendance (store (step (step (step (step office))))))
  = [Some noon; None; None].
Proof. reflexivity. Qed.

(* ================================================================= *)
(** * Further properties of the views *)

(** ** Reading *)





(** ** Updating and deleting a record *)









(** ** What a view does not touch *)

(** X5. The views on users, deletion apart, never touch the attendance
    table, and the views on attendance never touch the users.  Deleting a
    user keeps the other users, in order, and the records of the other
    users, in order. *)
Theorem views_frame (str : exn -> string) (hash : string -> string)
    (fromisoformat : string -> option datetime) (w : world) :
  session w = [] ->
  (forall data,
      attendance (store (snd (create_user str hash data w))) = attendance (store w))
  /\ (forall id data,
         attendance (store (snd (update_user str id data w))) = attendance (store w))
  /\ (forall data,
         users (store (snd (mark_attendance str data w))) = users (store w))
  /\ (forall id data,
         users (store (snd (update_attendance str fromisoformat id data w)))
         = users (store w))
  /\ (forall id,
         users (store (snd (delete_attendance str id w))) = users (store w))
  /\ (forall id u,
         get_user_in (store w) id = Some u ->
         users (store (snd (delete_user str id w)))
         = filter (fun v => negb (User.id v =? id)) (users (store w))
         /\ attendance (store (snd (delete_user str id w)))
            = filter (fun a => negb (Attendance.user_id a =? id))
                     (attendance (store w))).
Proof.
  intros Hs. split; [|split; [|split; [|split; [|split]]]].
  - intros data. rewrite (create_user_cases _ _ _ _ Hs).
    destruct data as [[[un|] [em|] [pw|] ro]|]; try reflexivity.
    destruct (first (filter _ (users (store w)))); [reflexivity|].
    destruct (first (filter _ (users (store w)))); reflexivity.
  - intros id data. rewrite (update_user_cases _ _ _ _ Hs).
    destruct (get_user_in (store w) id); [|reflexivity].
    destruct data as [b|]; [|reflexivity]. cbv zeta.
    destruct (user_supplied b); [|reflexivity].
    destruct (unique_ok _ _ _ _); reflexivity.
  - intros data. rewrite (mark_attendance_cases _ _ _ Hs).
    destruct data as [b|]; [|reflexivity].
    destruct (mb_user_id b) as [uid|]; [|reflexivity].
    destruct (get_user_in (store w) uid); [|reflexivity].
    destruct (todays_first _ _ _) as [e|]; [|reflexivity].
    destruct (Attendance.check_out_time e); reflexivity.
  - intros id data. rewrite (update_attendance_cases _ _ _ _ _ Hs).
    destruct (get_attendance_in (store w) id) as [r|]; [|reflexivity].
    destruct data as [b|]; [|reflexivity].
    destruct (parsed_check_out fromisoformat b) as [t|]; [|reflexivity]. cbv zeta.
    destruct (Attendance.to_dict _ _); destruct (attendance_supplied b); reflexivity.
  - intros id. rewrite (delete_attendance_cases _ _ _ Hs).
    destruct (get_attendance_in (store w) id); reflexivity.
  - intros id u Hu. rewrite (delete_user_cases _ _ _ Hs), Hu. split; reflexivity.
Qed.

Lemma views_frame_witness :
  users (store (snd (mark_attendance exn_name (Some (body_of 2)) roster)))
  = [alice; bob]
  /\ attendance (store (snd (update_user exn_name 1
                               (Some (mk_user_json (Some "al") None None None)) roster)))
     = attendance (store roster).
Proof.
  destruct (views_frame exn_name tagged iso_datetime roster eq_refl)
    as [_ [Hu [Hm _]]].
  split; [exact (Hm (Some (body_of 2)))|].
  exact (Hu 1 (Some (mk_user_json (Some "al") None None None))).
Defined.

(** ** The key of the toggle *)

Lemma filter_replace_other (p : Attendance.t -> bool) (e e' : Attendance.t)
    (l : list Attendance.t) :
  NoDup (map Attendance.id l) -> In e l ->
  Attendance.id e' = Attendance.id e -> p e = false -> p e' = false ->
  filter p (replace_attendance e' l) = filter p l.
Proof.
  intros Hnd He Hid Hpe Hpe'. unfold replace_attendance.
  induction l as [|a l IH]; [destruct He|].
  inversion Hnd as [|? ? Hnotin Hnd']; subst. cbn [map].
  destruct (Z.eqb_spec (Attendance.id a) (Attendance.id e')) as [E|Hne].
  - assert (a = e).
    { apply (NoDup_map_inj Attendance.id (a :: l) a e Hnd); [left; reflexivity|exact He|].
      congruence. }
    subst a. cbn [filter]. rewrite Hpe, Hpe'.
    rewrite (map_ext_in _ (fun b => b)); [rewrite map_id; reflexivity|].
    intros b Hb.
    destruct (Z.eqb_spec (Attendance.id b) (Attendance.id e')) as [E'|]; [|reflexivity].
    exfalso. apply Hnotin. rewrite <- Hid, <- E'. apply in_map. exact Hb.
  - destruct He as [->|He]; [congruence|].
    cbn [filter]. rewrite (IH Hnd' He). reflexivity.
Qed.

(** X6. [POST /api/attendance] for one user writes to at most one record that
    exists: the first record of that user for today.  Every record of another
    user or of another day stays as it is, and what the lookup finds for any
    other user, on any day, is the same before and after. *)
Theorem mark_attendance_key (str : exn -> string) (b : mark_json) (user_id : Z)
    (w : world) :
  session w = [] ->
  NoDup (map Attendance.id (attendance (store w))) ->
  mb_user_id b = Some user_id ->
  let today := dt_date (utcnow w (ticks w)) in
  let w' := snd (mark_attendance str (Some b) w) in
  (forall a, In a (attendance (store w)) ->
             Attendance.user_id a <> user_id \/ Attendance.date a <> today ->
             In a (attendance (store w')))
  /\ (forall other day, other <> user_id ->
        todays_first (store w') other day = todays_first (store w) other day).
Proof.
  intros Hs Hnd Hb today w'. subst w'.
  rewrite (mark_attendance_cases _ _ _ Hs), Hb.
  destruct (get_user_in (store w) user_id); [|split; auto].
  fold today.
  assert (Hin : forall r,
             (forall a, In a (attendance (store w)) ->
                        Attendance.user_id a <> user_id \/ Attendance.date a <> today ->
                        In a (attendance (store w) ++ [r]))
             /\ (Attendance.user_id r = user_id ->
                 forall other day, other <> user_id ->
                   todays_first (mkdb (users (store w)) (attendance (store w) ++ [r]))
                                other day
                   = todays_first (store w) other day)).
  { intros r. split.
    - intros a Ha _. apply in_or_app. left. exact Ha.
    - intros Hr other day Hne. unfold todays_first. cbn [attendance].
      rewrite filter_app. cbn [filter]. rewrite Hr.
      destruct (Z.eqb_spec user_id other) as [E|]; [congruence|].
      cbn [andb]. rewrite app_nil_r. reflexivity. }
  destruct (todays_first (store w) user_id today) as [e|] eqn:He;
    [destruct (Attendance.check_out_time e) eqn:Hout|].
  - unfold check_in_path. cbn [snd store attendance].
    split; [apply (Hin (checked_in w user_id b))|].
    apply (proj2 (Hin (checked_in w user_id b))). reflexivity.
  - unfold check_out_path. cbn [snd store attendance].
    apply first_filter_Some in He. destruct He as [Hine Hp].
    apply andb_prop in Hp. destruct Hp as [Hu Hd].
    apply Z.eqb_eq in Hu. apply date_eqb_eq in Hd.
    set (e' := Attendance.set_check_out_time _ e).
    split.
    + intros a Ha Hother. unfold replace_attendance. apply in_map_iff.
      exists a. split; [|exact Ha].
      destruct (Z.eqb_spec (Attendance.id a) (Attendance.id e')) as [E|]; [|reflexivity].
      exfalso.
      assert (a = e) by (apply (NoDup_map_inj Attendance.id _ a e Hnd Ha Hine E)).
      subst a. destruct Hother; contradiction.
    + intros other day Hne. unfold todays_first. cbn [attendance]. f_equal.
      apply filter_replace_other with (e := e); auto.
      * rewrite Hu. destruct (Z.eqb_spec user_id other); [congruence|reflexivity].
      * cbn [e' Attendance.user_id Attendance.set_check_out_time]. rewrite Hu.
        destruct (Z.eqb_spec user_id other); [congruence|reflexivity].
  - unfold check_in_path. cbn [snd store attendance].
    split; [apply (Hin (checked_in w user_id b))|].
    apply (proj2 (Hin (checked_in w user_id b))). reflexivity.
Qed.

Lemma NoDup_roster : NoDup (map Attendance.id (attendance (store roster))).
Proof. cbn. repeat constructor; cbn; intuition discriminate. Defined.

Lemma mark_attendance_key_witness :
  todays_first (store (snd (mark_attendance exn_name (Some (body_of 1)) roster)))
               2 today
  = todays_first (store roster) 2 today
  /\ In (Attendance.mk 2 1 (Some noon) (Some noon) "absent" "ill" day_before)
        (attendance (store (snd (mark_attendance exn_name (Some (body_of 1)) roster)))).
Proof.
  destruct (mark_attendance_key exn_name (body_of 1) 1 roster eq_refl NoDup_roster
                                eq_refl) as [Hrec Hkey].
  split.
  - apply Hkey. discriminate.
  - apply Hrec; [cbn; auto|]. right. discriminate.
Defined.

Lemma first_app_Some {A} (l l' : list A) (x : A) :
  first l = Some x -> first (l ++ l') = Some x.
Proof. destruct l; [discriminate|]. intros H. exact H. Qed.

Lemma mark_times_S str b k w :
  mark_times str b (S k) w
  = snd (mark_attendance str (Some b) (mark_times str b k w)).
Proof. reflexivity. Qed.

(** What stays true while a user whose first record of the day is closed
    keeps posting. *)
Lemma mark_times_invariant str b user_id u today e t w k :
  session w = [] ->
  get_user_in (store w) user_id = Some u ->
  mb_user_id b = Some user_id ->
  (forall n, dt_date (utcnow w n) = today) ->
  todays_first (store w) user_id today = Some e ->
  Attendance.check_out_time e = Some t ->
  let wk := mark_times str b k w in
  session wk = [] /\ utcnow wk = utcnow w
  /\ users (store wk) = users (store w)
  /\ (exists news,
         attendance (store wk) = (attendance (store w) ++ news)%list
         /\ List.length news = k
         /\ Forall (fun r => Attendance.check_out_time r = None
                             /\ Attendance.user_id r = user_id
                             /\ Attendance.date r = today) news)
  /\ mark_attendance str (Some b) wk
     = (Return (message "Check-in recorded successfully", 201),
        mark_times str b (S k) w).
Proof.
  intros Hs Hu Hb Hclock He Hout.
  assert (Hstep : forall wk,
             session wk = [] -> utcnow wk = utcnow w ->
             users (store wk) = users (store w) ->
             (exists news, attendance (store wk) = (attendance (store w) ++ news)%list) ->
             mark_attendance str (Some b) wk = check_in_path wk user_id b).
  { intros wk Hsk Hck Huk [news Hak].
    rewrite (mark_attendance_cases _ _ _ Hsk), Hb.
    unfold get_user_in. rewrite Huk. fold (get_user_in (store w) user_id). rewrite Hu.
    rewrite Hck, Hclock. unfold todays_first. rewrite Hak, filter_app.
    rewrite (first_app_Some _ _ e He). rewrite Hout. reflexivity. }
  induction k as [|k IH]; cbv zeta.
  - rewrite mark_times_S. change (mark_times str b 0 w) with w.
    assert (H0 : mark_attendance str (Some b) w = check_in_path w user_id b).
    { apply Hstep; auto. exists []. rewrite app_nil_r. reflexivity. }
    split; [exact Hs|]. split; [reflexivity|]. split; [reflexivity|]. split.
    + exists []. rewrite app_nil_r. split; [reflexivity|]. split; [reflexivity|].
      constructor.
    + rewrite H0. reflexivity.
  - cbv zeta in IH. destruct IH as [Hsk [Hck [Huk [[news [Hak [Hlen Hall]]] Hrun]]]].
    set (wk := mark_times str b k w) in *.
    assert (Hnext : mark_times str b (S k) w = snd (check_in_path wk user_id b)).
    { rewrite mark_times_S. fold wk.
      rewrite (Hstep wk Hsk Hck Huk (ex_intro _ news Hak)). reflexivity. }
    assert (Hatt : attendance (store (mark_times str b (S k) w))
                   = (attendance (store w) ++ (news ++ [checked_in wk user_id b]))%list).
    { rewrite Hnext. cbn [snd check_in_path store attendance].
      rewrite Hak, app_assoc. reflexivity. }
    assert (Hs' : session (mark_times str b (S k) w) = []) by (rewrite Hnext; reflexivity).
    assert (Hc' : utcnow (mark_times str b (S k) w) = utcnow w)
      by (rewrite Hnext; exact Hck).
    assert (Hu' : users (store (mark_times str b (S k) w)) = users (store w))
      by (rewrite Hnext; exact Huk).
    split; [exact Hs'|]. split; [exact Hc'|]. split; [exact Hu'|]. split.
    + exists (news ++ [checked_in wk user_id b])%list.
      split; [exact Hatt|]. split.
      * rewrite length_app, Hlen. cbn. lia.
      * apply Forall_app. split; [exact Hall|]. constructor; [|constructor].
        cbn [checked_in Attendance.check_out_time Attendance.user_id Attendance.date].
        rewrite Hck, Hclock. repeat split.
    + rewrite (mark_times_S str b (S k) w).
      rewrite (Hstep _ Hs' Hc' Hu' (ex_intro _ _ Hatt)). reflexivity.
Qed.

(** X7. Once the first record of a user for today has a check-out time, the
    lookup of [POST /api/attendance] keeps finding that record: every further
    call on that day is a check-in.  After [k] calls the table has [k] more
    records of that user, all of them open, and nothing else has changed: no
    call checks any of them out. *)
Theorem mark_attendance_after_check_out (str : exn -> string) (b : mark_json)
    (user_id : Z) (u : User.t) (today : date) (e : Attendance.t) (t : datetime)
    (w : world) (k : nat) :
  session w = [] ->
  get_user_in (store w) user_id = Some u ->
  mb_user_id b = Some user_id ->
  (forall n, dt_date (utcnow w n) = today) ->
  todays_first (store w) user_id today = Some e ->
  Attendance.check_out_time e = Some t ->
  let wk := mark_times str b k w in
  users (store wk) = users (store w)
  /\ (exists news,
         attendance (store wk) = (attendance (store w) ++ news)%list
         /\ List.length news = k
         /\ Forall (fun r => Attendance.check_out_time r = None
                             /\ Attendance.user_id r = user_id
                             /\ Attendance.date r = today) news)
  /\ mark_attendance str (Some b) wk
     = (Return (message "Check-in recorded successfully", 201),
        mark_times str b (S k) w).
Proof.
  intros Hs Hu Hb Hclock He Hout.
  destruct (mark_times_invariant str b user_id u today e t w k Hs Hu Hb Hclock He Hout)
    as [_ [_ [Husers [Hnews Hrun]]]].
  split; [exact Husers|]. split; [exact Hnews|exact Hrun].
Qed.

Lemma mark_attendance_after_check_out_witness :
  map Attendance.check_out_time
      (attendance (store (mark_times exn_name (body_of 1) 3 closed_day)))
  = [Some noon; None; None; None]
  /\ exists news,
      attendance (store (mark_times exn_name (body_of 1) 3 closed_day))
      = (attendance (store closed_day) ++ news)%list
      /\ List.length news = 3%nat.
Proof.
  destruct (mark_attendance_after_check_out exn_name (body_of 1) 1 alice today
              (Attendance.mk 1 1 (Some noon) (Some noon) "present" "" today) noon
              closed_day 3 eq_refl eq_refl eq_refl (fun n => eq_refl) eq_refl eq_refl)
    as [_ [[news [Hatt [Hlen _]]] _]].
  split; [reflexivity|]. exists news. split; [exact Hatt|exact Hlen].
Defined.

(** ** The global summary *)

Lemma count_all_by_status (l : list Attendance.t) :
  Z.of_nat (List.length l)
  = count (has_status "present") l + count (has_status "absent") l
    + count (has_status "late") l + count other_status l.
Proof.
  pose proof (count_by_status (fun _ => true) l) as H. cbn [andb] in H.
  unfold count in H at 1. rewrite filter_true in H. exact H.
Qed.

(** X8. In the global summary total_users is the number of users, and the
    three status counts add up to at most the number of records, the rest
    being the records of any other status.  attendance_rate reads present
    and absent only: one more record that is neither leaves it as it was,
    while it raises total_late when its status is "late". *)
Theorem summary_partition (str : exn -> string) (w : world) :
  exists j present absent late,
    get_summary str w = (Return (j, 200), w)
    /\ field "total_users" j = Some (JInt (Z.of_nat (List.length (users (store w)))))
    /\ field "total_present" j = Some (JInt present)
    /\ field "total_absent" j = Some (JInt absent)
    /\ field "total_late" j = Some (JInt late)
    /\ 0 <= present /\ 0 <= absent /\ 0 <= late
    /\ Z.of_nat (List.length (attendance (store w)))
       = present + absent + late + count other_status (attendance (store w))
    /\ present + absent + late <= Z.of_nat (List.length (attendance (store w)))
    /\ forall r w',
        has_status "present" r = false -> has_status "absent" r = false ->
        store w' = mkdb (users (store w)) (attendance (store w) ++ [r]) ->
        exists j',
          get_summary str w' = (Return (j', 200), w')
          /\ field "attendance_rate" j' = field "attendance_rate" j
          /\ field "total_present" j' = Some (JInt present)
          /\ field "total_absent" j' = Some (JInt absent)
          /\ field "total_late" j'
             = Some (JInt (late + if has_status "late" r then 1 else 0)).
Proof.
  set (l := attendance (store w)).
  do 4 eexists. split; [reflexivity|].
  cbn [field assoc String.eqb Ascii.eqb Bool.eqb]. fold l.
  do 4 (split; [reflexivity|]).
  pose proof (count_nonneg (has_status "present") l).
  pose proof (count_nonneg (has_status "absent") l).
  pose proof (count_nonneg (has_status "late") l).
  pose proof (count_nonneg other_status l).
  pose proof (count_all_by_status l).
  do 3 (split; [assumption|]). split; [assumption|]. split; [lia|].
  intros r w' Hp Ha Hw'. eexists. split; [reflexivity|].
  rewrite Hw'. cbn [field assoc String.eqb Ascii.eqb Bool.eqb attendance]. fold l.
  rewrite !count_snoc, Hp, Ha, !Z.add_0_r. repeat split.
Qed.

Lemma summary_partition_witness :
  exists j,
    get_summary exn_name roster = (Return (j, 200), roster)
    /\ field "total_users" j = Some (JInt 2)
    /\ field "total_late" j = Some (JInt 1).
Proof.
  destruct (summary_partition exn_name roster)
    as (j & p & a & l & Hrun & Hu & _ & _ & Hl & _).
  exists j. split; [exact Hrun|]. split; [exact Hu|].
  vm_compute in Hrun. injection Hrun as <-. reflexivity.
Defined.

(** X9. Up to [checked_bound] records with status "present" or "absent", the
    attendance_rate is the float of a number of hundredths between 0 and
    10000: a rate between 0 and 100.  It is 100 when no record is absent and 0
    when none is present. *)
Theorem attendance_rate_bounds (str : exn -> string) (w : world) :
  let present := count (has_status "present") (attendance (store w)) in
  let absent := count (has_status "absent") (attendance (store w)) in
  0 < present + absent <= Z.of_nat checked_bound ->
  exists j n,
    get_summary str w = (Return (j, 200), w)
    /\ field "attendance_rate" j = Some (JFloat (hundredths n))
    /\ 0 <= n <= 10000
    /\ (absent = 0 -> n = 10000)
    /\ (present = 0 -> n = 0).
Proof.
  intros present absent Hb.
  pose proof (count_nonneg (has_status "present") (attendance (store w))) as Hp.
  pose proof (count_nonneg (has_status "absent") (attendance (store w))) as Ha.
  fold present in Hp. fold absent in Ha.
  destruct (percentage_nearest present (present + absent)) as [n [Hn Hnear]];
    [lia|exact Hb|].
  eexists. exists n. split; [reflexivity|].
  cbn [field assoc String.eqb Ascii.eqb Bool.eqb]. fold present absent.
  split; [rewrite Hn; reflexivity|].
  split; [nia|]. split; intros H0; nia.
Qed.

Lemma attendance_rate_bounds_witness :
  exists j n,
    get_summary exn_name roster = (Return (j, 200), roster)
    /\ field "attendance_rate" j = Some (JFloat (hundredths n))
    /\ 0 <= n <= 10000.
Proof.
  destruct (attendance_rate_bounds exn_name roster) as (j & n & Hrun & Hr & Hn & _).
  - vm_compute. split; [reflexivity|discriminate].
  - exists j, n. repeat split; try assumption; apply Hn.
Defined.

(** ** One request after another *)

Lemma count_none {A} (p : A -> bool) (l : list A) :
  (forall x, In x l -> p x = false) -> count p l = 0.
Proof. intros H. unfold count. rewrite (filter_none p l H). reflexivity. Qed.

(** X10. A user that was just created has no attendance record: in a store
    whose records reference live users, the analytics of the new id show
    total_records 0, the three counts 0 and attendance_percentage 0, and no
    record of the listing carries the new id. *)
Theorem created_user_has_no_records (str : exn -> string) (hash : string -> string)
    (data : option user_json) (w w1 : world) (j : json) :
  session w = [] ->
  fk_ok (store w) ->
  create_user str hash data w = (Return (j, 201), w1) ->
  exists u,
    field "user" j = Some (User.to_dict u)
    /\ get_user_in (store w1) (User.id u) = Some u
    /\ (forall a, In a (attendance (store w1)) -> Attendance.user_id a <> User.id u)
    /\ get_user_analytics str (User.id u) w1
       = (Return (JObj [ ("username", JStr (User.username u));
                         ("total_records", JInt 0);
                         ("present", JInt 0);
                         ("absent", JInt 0);
                         ("late", JInt 0);
                         ("attendance_percentage", JInt 0) ], 200), w1).
Proof.
  intros Hs Hfk Hrun.
  rewrite (create_user_cases str hash data w Hs) in Hrun.
  destruct data as [[[un|] [em|] [pw|] ro]|]; try discriminate.
  destruct (first (filter _ (users (store w)))); [discriminate|].
  destruct (first (filter _ (users (store w)))); [discriminate|].
  cbv zeta in Hrun. injection Hrun as <- <-.
  set (u := created_user hash w un em pw ro).
  exists u. split; [reflexivity|].
  assert (Hget : get_user_in (mkdb (users (store w) ++ [u]) (attendance (store w)))
                             (User.id u) = Some u)
    by (apply get_user_in_new; reflexivity).
  assert (Hnone : forall a, In a (attendance (store w)) ->
                            Attendance.user_id a <> User.id u).
  { intros a Ha. destruct (Hfk a Ha) as [v [Hv Hid]]. rewrite <- Hid.
    pose proof (next_id_above (map User.id (users (store w))) (User.id v)
                              (in_map _ _ _ Hv)).
    cbn [u created_user User.id]. lia. }
  cbn [store attendance]. split; [exact Hget|]. split; [exact Hnone|].
  unfold get_user_analytics. mrun. rewrite Hget. mrun.
  rewrite !count_none; [reflexivity| | | |];
    intros a Ha; unfold of_user;
    (destruct (Z.eqb_spec (Attendance.user_id a) (User.id u)) as [E|];
     [exfalso; exact (Hnone a Ha E)|reflexivity]).
Qed.

Lemma created_user_has_no_records_witness :
  exists j w1 u,
    create_user exn_name tagged
      (Some (mk_user_json (Some "carol") (Some "c@x.com") (Some "r") None)) roster
    = (Return (j, 201), w1)
    /\ field "user" j = Some (User.to_dict u)
    /\ get_user_analytics exn_name (User.id u) w1
       = (Return (JObj [ ("username", JStr (User.username u));
                         ("total_records", JInt 0);
                         ("present", JInt 0);
                         ("absent", JInt 0);
                         ("late", JInt 0);
                         ("attendance_percentage", JInt 0) ], 200), w1).
Proof.
  assert (Hrun : exists j w1,
             create_user exn_name tagged
               (Some (mk_user_json (Some "carol") (Some "c@x.com") (Some "r") None))
               roster = (Return (j, 201), w1))
    by (do 2 eexists; reflexivity).
  destruct Hrun as [j [w1 Hrun]].
  destruct (created_user_has_no_records exn_name tagged _ roster w1 j eq_refl
              fk_ok_roster Hrun) as [u [Hu [_ [_ Han]]]].
  exists j, w1, u. split; [exact Hrun|]. split; [exact Hu|exact Han].
Defined.

Lemma get_user_in_deleted (d : db) (id : Z) (att : list Attendance.t) :
  get_user_in (mkdb (filter (fun v => negb (User.id v =? id)) (users d)) att) id = None.
Proof.
  unfold get_user_in. cbn [users]. rewrite filter_none; [reflexivity|].
  intros v Hv. apply filter_In in Hv. destruct Hv as [_ Hv].
  apply negb_true_iff in Hv. exact Hv.
Qed.

(** X11. After [DELETE /api/users/<id>] of a known user the id is unknown to
    every view that takes one: fetch, update, analytics, mark-attendance
    and a second delete answer 404, the id of a stored user being within the
    64-bit integer range of the store.  The username and the email of the
    deleted user are free again: in a store without duplicate keys, creating
    a user with them is answered with 201. *)
Theorem deleted_user_is_gone (str : exn -> string) (hash : string -> string)
    (user_id : Z) (u : User.t) (w : world) :
  session w = [] ->
  get_user_in (store w) user_id = Some u ->
  let w' := snd (delete_user str user_id w) in
  (int64 user_id = true ->
   get_user str user_id w' = (Return (error "User not found", 404), w')
   /\ (forall data,
          update_user str user_id data w' = (Return (error "User not found", 404), w'))
   /\ get_user_analytics str user_id w' = (Return (error "User not found", 404), w')
   /\ (forall status notes,
          mark_attendance str (Some (mk_mark_json (Some user_id) status notes)) w'
          = (Return (error "User not found", 404), w'))
   /\ delete_user str user_id w' = (Return (error "User not found", 404), w'))
  /\ (keys_ok (store w) ->
      forall password role, exists j w'',
        create_user str hash
          (Some (mk_user_json (Some (User.username u)) (Some (User.email u))
                              (Some password) role)) w'
        = (Return (j, 201), w'')).
Proof.
  intros Hs Hu w'. subst w'. rewrite (delete_user_cases _ _ _ Hs), Hu. cbn [snd].
  set (w' := mkworld _ _ _ _).
  assert (Hgone : get_user_in (store w') user_id = None)
    by apply get_user_in_deleted.
  assert (Hs' : session w' = []) by reflexivity.
  split.
  { intros Hrange.
    split; [rewrite get_user_run, Hgone; unfold missing; rewrite Hrange;
            reflexivity|].
    split; [intros data; rewrite (update_user_cases _ _ _ _ Hs'), Hgone;
            unfold missing; rewrite Hrange; reflexivity|].
    split; [unfold get_user_analytics; mrun; rewrite Hgone, Hrange; reflexivity|].
    split.
    { intros status notes. rewrite (mark_attendance_cases _ _ _ Hs').
      cbn [mb_user_id]. rewrite Hgone. unfold missing. rewrite Hrange.
      reflexivity. }
    rewrite (delete_user_cases _ _ _ Hs'), Hgone. unfold missing.
    rewrite Hrange. reflexivity. }
  intros [Hids [_ [Hnames Hemails]]] password role.
  destruct (get_user_in_Some _ _ _ Hu) as [Hin Hid].
  rewrite (create_user_cases _ _ _ _ Hs').
  assert (Hfree : forall (f : User.t -> string),
             NoDup (map f (users (store w))) ->
             first (filter (fun v => String.eqb (f v) (f u)) (users (store w'))) = None).
  { intros f Hf. apply first_filter_None. intros v Hv. cbn [w' store users] in Hv.
    apply filter_In in Hv. destruct Hv as [Hv Hne].
    apply negb_true_iff, Z.eqb_neq in Hne. apply String.eqb_neq. intros E.
    apply Hne. rewrite <- Hid. f_equal.
    apply (NoDup_map_inj f _ v u Hf Hv Hin E). }
  rewrite (Hfree User.username Hnames), (Hfree User.email Hemails).
  do 2 eexists. reflexivity.
Qed.

Lemma deleted_user_is_gone_witness :
  get_user exn_name 2 (snd (delete_user exn_name 2 office))
  = (Return (error "User not found", 404), snd (delete_user exn_name 2 office))
  /\ exists j w'',
      create_user exn_name tagged
        (Some (mk_user_json (Some "bob") (Some "b@x.com") (Some "s") None))
        (snd (delete_user exn_name 2 office))
      = (Return (j, 201), w'').
Proof.
  destruct (deleted_user_is_gone exn_name tagged 2 bob office eq_refl eq_refl)
    as [Hgone Hnew].
  split; [exact (proj1 (Hgone eq_refl))|]. exact (Hnew keys_ok_office "s" None).
Defined.

Lemma get_user_in_replaced (u u' : User.t) (l : list User.t)
    (att : list Attendance.t) (id : Z) :
  get_user_in (mkdb l att) id = Some u -> User.id u' = id ->
  get_user_in (mkdb (replace_user u' l) att) id = Some u'.
Proof.
  unfold get_user_in, replace_user. cbn [users]. intros H Hid.
  induction l as [|v l IH]; [discriminate|]. cbn [map filter] in *.
  rewrite Hid. destruct (Z.eqb_spec (User.id v) id) as [E|Hne].
  - rewrite Hid, Z.eqb_refl. reflexivity.
  - apply Z.eqb_neq in Hne. rewrite Hne. rewrite Hid in IH. apply IH. exact H.
Qed.

(** X12. A user fetched right after a successful update shows the values of
    the update: in a store without duplicate keys, when the supplied username
    and email are not those of another user, [GET /api/users/<id>] after
    [PUT /api/users/<id>] returns the representation of the updated row.
    Sending a user its own username and email is such an update, and it
    leaves the users as they are. *)
Theorem fetch_after_update (str : exn -> string) (user_id : Z) (u : User.t)
    (b : user_json) (w : world) :
  session w = [] ->
  keys_ok (store w) ->
  get_user_in (store w) user_id = Some u ->
  let w' := snd (update_user str user_id (Some b) w) in
  ((forall v, In v (users (store w)) -> User.id v <> user_id ->
              ub_username b <> Some (User.username v)
              /\ ub_email b <> Some (User.email v)) ->
   get_user str user_id w' = (Return (User.to_dict (updated_user b u), 200), w')
   /\ field "username" (User.to_dict (updated_user b u))
      = Some (JStr (get_default (ub_username b) (User.username u)))
   /\ field "email" (User.to_dict (updated_user b u))
      = Some (JStr (get_default (ub_email b) (User.email u)))
   /\ field "role" (User.to_dict (updated_user b u))
      = Some (JStr (get_default (ub_role b) (User.role u))))
  /\ (ub_username b = Some (User.username u) -> ub_email b = Some (User.email u) ->
      ub_role b = None ->
      update_user str user_id (Some b) w = (Return (user_updated_message u, 200), w')
      /\ users (store w') = users (store w)).
Proof.
  intros Hs Hk Hu w'. subst w'.
  pose proof Hk as [Hids [_ [Hnames Hemails]]].
  destruct (get_user_in_Some _ _ _ Hu) as [Hin Hid].
  pose proof (updated_user_fields b u) as [Fid [_ [_ [Fun [Fem Fro]]]]].
  assert (Hok : (forall v, In v (users (store w)) -> User.id v <> user_id ->
                           ub_username b <> Some (User.username v)
                           /\ ub_email b <> Some (User.email v)) ->
                unique_ok (User.id u) (User.username (updated_user b u))
                          (User.email (updated_user b u)) (users (store w)) = true).
  { intros Hfree. apply unique_ok_iff. intros v Hv Hne. rewrite Hid in Hne.
    destruct (Hfree v Hv Hne) as [Hn He]. rewrite Fun, Fem. split.
    - destruct (ub_username b) as [x|]; cbn [get_default]; [congruence|].
      intros E. apply Hne. rewrite <- Hid. f_equal.
      apply (NoDup_map_inj User.username _ v u Hnames Hv Hin E).
    - destruct (ub_email b) as [x|]; cbn [get_default]; [congruence|].
      intros E. apply Hne. rewrite <- Hid. f_equal.
      apply (NoDup_map_inj User.email _ v u Hemails Hv Hin E). }
  rewrite (update_user_cases _ _ _ _ Hs), Hu. cbv zeta. split.
  - intros Hfree. rewrite (Hok Hfree).
    split; [|rewrite <- Fun, <- Fem, <- Fro; repeat split].
    rewrite get_user_run. destruct (user_supplied b) eqn:Hsup.
    + cbn [snd store]. destruct (store w) as [us att] eqn:Hst. cbn [users attendance].
      rewrite (get_user_in_replaced u (updated_user b u) us att user_id Hu);
        [reflexivity|congruence].
    + cbn [snd]. rewrite Hu, (user_not_supplied b u Hsup). reflexivity.
  - intros Hbn Hbe Hbr.
    assert (Hsame : updated_user b u = u).
    { destruct b as [un em pw ro]. cbn in Hbn, Hbe, Hbr. subst. destruct u. reflexivity. }
    assert (Hsup : user_supplied b = true) by (unfold user_supplied; rewrite Hbn; reflexivity).
    rewrite Hsup, Hsame.
    assert (Hok' : unique_ok (User.id u) (User.username u) (User.email u)
                             (users (store w)) = true).
    { rewrite <- Hsame at 2 3. apply Hok. intros v Hv Hne. rewrite Hbn, Hbe. split.
      - intros E. injection E as E. apply Hne. rewrite <- Hid. f_equal.
        apply (NoDup_map_inj User.username _ v u Hnames Hv Hin). congruence.
      - intros E. injection E as E. apply Hne. rewrite <- Hid. f_equal.
        apply (NoDup_map_inj User.email _ v u Hemails Hv Hin). congruence. }
    rewrite Hok'. cbn [snd store users]. split; [reflexivity|].
    apply (replace_user_self u _ Hids Hin).
Qed.

Lemma fetch_after_update_witness :
  get_user exn_name 2
    (snd (update_user exn_name 2
            (Some (mk_user_json (Some "robert") None None (Some "manager"))) office))
  = (Return (User.to_dict (User.mk 2 "robert" "b@x.com" "hash:q" "manager" noon), 200),
     snd (update_user exn_name 2
            (Some (mk_user_json (Some "robert") None None (Some "manager"))) office)).
Proof.
  destruct (fetch_after_update exn_name 2 bob
              (mk_user_json (Some "robert") None None (Some "manager")) office
              eq_refl keys_ok_office eq_refl) as [H _].
  apply H. intros v [<-|[<-|[]]] Hne; split; discriminate.
Defined.

(** ** Edges of the listing *)

(** X13. In [GET /api/attendance] an empty query argument is no argument:
    [?date=&user_id=] lists every record.  A user_id from which the store
    reads no integer, or the id of no record's user, is no error: the answer
    is 200 with an empty list. *)
Theorem get_attendance_edges (str : exn -> string) (strptime : string -> option date)
    (numeric : string -> option Z) (w : world) :
  get_attendance str strptime numeric (Some "") (Some "") w
  = get_attendance str strptime numeric None None w
  /\ (forall date, get_attendance str strptime numeric date (Some "") w
                   = get_attendance str strptime numeric date None w)
  /\ (forall user_id, get_attendance str strptime numeric (Some "") user_id w
                      = get_attendance str strptime numeric None user_id w)
  /\ forall date day c s,
      date_filter strptime date = Return day ->
      numeric (String c s) = None
      \/ (exists n, numeric (String c s) = Some n
                    /\ forall a, In a (attendance (store w)) ->
                                 Attendance.user_id a <> n) ->
      get_attendance str strptime numeric date (Some (String c s)) w
      = (Return (JList [], 200), w).
Proof.
  split; [reflexivity|]. split; [reflexivity|]. split; [reflexivity|].
  intros date day c s Hday Hnone. rewrite get_attendance_cases, Hday.
  rewrite filter_none; [reflexivity|].
  intros a Ha. unfold kept, user_id_is. cbn [given].
  destruct Hnone as [->|[n [-> Hn]]]; [apply andb_false_r|].
  apply andb_false_iff. right. apply Z.eqb_neq. apply Hn. exact Ha.
Qed.

Lemma get_attendance_edges_witness :
  get_attendance exn_name iso_date decimal None (Some "bob") roster
  = (Return (JList [], 200), roster)
  /\ get_attendance exn_name iso_date decimal None (Some "7") roster
     = (Return (JList [], 200), roster).
Proof.
  destruct (get_attendance_edges exn_name iso_date decimal roster) as [_ [_ [_ H]]].
  split.
  - apply (H None None "b"%char "ob" eq_refl). left. reflexivity.
  - apply (H None None "7"%char "" eq_refl). right. exists 7. split; [reflexivity|].
    intros a Ha. cbn in Ha.
    destruct Ha as [<-|[<-|[<-|[<-|[<-|[]]]]]]; discriminate.
Defined.

(** ** The public representation of a record *)





(** ** Reachable stores, at work *)

Lemma reachable_wf_witness :
  let w := snd (serve exn_name tagged iso_datetime (PostAttendance (Some (body_of 1)))
             (snd (serve exn_name tagged iso_datetime
                     (PostUser (Some (mk_user_json (Some "alice") (Some "a@x.com")
                                                   (Some "p") None)))
                     (mkworld (mkdb [] []) [] (fun _ => noon) 0)))) in
  session w = [] /\ keys_ok (store w) /\ fk_ok (store w)
  /\ List.length (attendance (store w)) = 1%nat.
Proof.
  intros w.
  destruct (reachable_wf exn_name tagged iso_datetime w) as [Hs [Hk Hfk]].
  - apply reach_served. apply reach_served. apply reach_created.
  - repeat split; try assumption; apply Hk.
Defined.

(** ** Creating twice *)

(** X16. Once a user is created, its username and its email are taken: a
    second [POST /api/users] carrying the same username or the same email,
    whatever else it carries, is answered with 400 and writes nothing. *)
Theorem create_user_twice (str : exn -> string) (hash : string -> string)
    (b : user_json) (w w1 : world) (j : json) :
  session w = [] ->
  create_user str hash (Some b) w = (Return (j, 201), w1) ->
  forall b',
    ub_username b' = ub_username b \/ ub_email b' = ub_email b ->
    exists msg, create_user str hash (Some b') w1 = (Return (error msg, 400), w1).
Proof.
  intros Hs Hrun b' Hsame.
  rewrite (create_user_cases str hash (Some b) w Hs) in Hrun.
  destruct b as [[un|] [em|] [pw|] ro]; try discriminate.
  destruct (first (filter _ (users (store w)))); [discriminate|].
  destruct (first (filter _ (users (store w)))); [discriminate|].
  cbv zeta in Hrun. injection Hrun as _ <-.
  set (u := created_user hash w un em pw ro).
  set (w1 := mkworld _ _ _ _).
  rewrite (create_user_cases str hash (Some b') w1 eq_refl).
  destruct b' as [[un'|] [em'|] [pw'|] ro']; try (eexists; reflexivity).
  cbn [w1 store users ub_username ub_email] in *.
  assert (Hu : In u (users (store w) ++ [u])) by (apply in_or_app; right; left; reflexivity).
  destruct (first (filter (fun v => String.eqb (User.username v) un') _)) eqn:Hn;
    [eexists; reflexivity|].
  destruct (first (filter (fun v => String.eqb (User.email v) em') _)) eqn:He;
    [eexists; reflexivity|].
  exfalso. rewrite first_filter_None in Hn, He.
  specialize (Hn u Hu). specialize (He u Hu). cbn beta in Hn, He.
  apply String.eqb_neq in Hn, He. cbn [u created_user User.username User.email] in Hn, He.
  destruct Hsame as [E|E]; injection E as E; congruence.
Qed.

Lemma create_user_twice_witness :
  exists j w1 msg,
    create_user exn_name tagged
      (Some (mk_user_json (Some "carol") (Some "c@x.com") (Some "r") None)) office
    = (Return (j, 201), w1)
    /\ create_user exn_name tagged
         (Some (mk_user_json (Some "carol") (Some "other@x.com") (Some "s")
                             (Some "admin"))) w1
       = (Return (error msg, 400), w1).
Proof.
  assert (Hrun : exists j w1,
             create_user exn_name tagged
               (Some (mk_user_json (Some "carol") (Some "c@x.com") (Some "r") None))
               office = (Return (j, 201), w1))
    by (do 2 eexists; reflexivity).
  destruct Hrun as [j [w1 Hrun]].
  destruct (create_user_twice exn_name tagged _ office w1 j eq_refl Hrun
              (mk_user_json (Some "carol") (Some "other@x.com") (Some "s") (Some "admin")))
    as [msg Hmsg].
  - left. reflexivity.
  - exists j, w1, msg. split; [exact Hrun|exact Hmsg].
Defined.
